(** * WormDB: a JSON-file document store and its object-document mapping

    A shallow embedding of [wormdb.py].  The module keeps two process-wide
    globals, [DB_PATH] and [CACHE]; [WormDB] reads and writes the whole file,
    [Field] is a descriptor that stores attribute values in a dictionary
    [_data], [DocumentMeta] processes a schema class when it is declared, and
    [Document] offers [save], [update], [delete], [get_raw] and [get].

    Python dictionaries are objects with identity: the dictionary bound to
    [_data] is created once per class by the metaclass, and [save] appends
    that very object to the collection.  The embedding therefore keeps every
    record dictionary in a heap and lets [CACHE] and the classes hold
    references to it. *)

From Stdlib Require Import ZArith String List Bool Lia.
From stdpp Require Import base option gmap strings list.
Import ListNotations.

Local Open Scope Z_scope.
Local Open Scope string_scope.
Local Open Scope list_scope.

(** ** Python values

    The values a record may hold: what [json.load] produces and [json.dump]
    accepts, floating-point numbers left out.  Python integers are unbounded,
    hence [Z].  Lists and dictionaries nested inside a record are never
    mutated by the module and are kept as trees. *)

#[warnings="-register-all"]
Inductive value : Type :=
  | VNone
  | VBool (b : bool)
  | VInt (z : Z)
  | VStr (s : string)
  | VList (l : list value)
  | VDict (d : list (string * value)).

(** A Python [dict] with string keys, in insertion order.  [d[k] = v] keeps the
    position of a key that is present and appends a new key at the end. *)
Definition dict (A : Type) : Type := list (string * A).

Fixpoint dict_get {A} (d : dict A) (k : string) : option A :=
  match d with
  | [] => None
  | (k', v) :: d' => if String.eqb k' k then Some v else dict_get d' k
  end.

Fixpoint dict_set {A} (d : dict A) (k : string) (v : A) : dict A :=
  match d with
  | [] => [(k, v)]
  | (k', v') :: d' =>
      if String.eqb k' k then (k', v) :: d' else (k', v') :: dict_set d' k v
  end.

(** [d.update(other)]: every item of [other] is assigned into [d] in turn. *)
Definition dict_update {A} (d other : dict A) : dict A :=
  fold_left (fun acc kv => dict_set acc (fst kv) (snd kv)) other d.

(** [a == b] on values.  [bool] is a subclass of [int], so [True == 1];
    lists compare element-wise in order; dictionaries compare by size and
    by the value under every key, whatever the insertion order. *)
Fixpoint py_eq (a b : value) {struct a} : bool :=
  match a with
  | VNone => match b with VNone => true | _ => false end
  | VBool x =>
      match b with
      | VBool y => Bool.eqb x y
      | VInt z => Z.eqb (Z.b2z x) z
      | _ => false
      end
  | VInt x =>
      match b with
      | VInt y => Z.eqb x y
      | VBool y => Z.eqb x (Z.b2z y)
      | _ => false
      end
  | VStr s => match b with VStr t => String.eqb s t | _ => false end
  | VList l =>
      match b with
      | VList m =>
          (fix go (l m : list value) {struct l} : bool :=
             match l, m with
             | [], [] => true
             | x :: l', y :: m' => py_eq x y && go l' m'
             | _, _ => false
             end) l m
      | _ => false
      end
  | VDict d =>
      match b with
      | VDict e =>
          Nat.eqb (length d) (length e) &&
          (fix go (d : list (string * value)) {struct d} : bool :=
             match d with
             | [] => true
             | (k, v) :: d' =>
                 match dict_get e k with
                 | Some w => py_eq v w
                 | None => false
                 end && go d'
             end) d
      | _ => false
      end
  end.

Definition is_None (v : value) : bool :=
  match v with VNone => true | _ => false end.

(** The integer a value stands for in arithmetic and ordering, if any. *)
Definition as_int (v : value) : option Z :=
  match v with
  | VInt z => Some z
  | VBool b => Some (Z.b2z b)
  | _ => None
  end.

(** ** Exceptions and the effect monad

    A Python call either returns or raises, and what it did to the globals
    and to the objects before raising stays done.  A computation is a
    function from the state to an outcome and the state it leaves. *)

(** The exceptions the module can end in.  [NotModelled] is no Python
    exception: it marks the places where Python would go on in a way this
    embedding does not follow (a descriptor that was never named, an
    attribute that is not a descriptor of the class). *)
Inductive exn : Type :=
  | KeyError
  | TypeError
  | ValueError
  | FileNotFoundError
  | IsADirectoryError
  | NotADirectoryError
  | PermissionError
  | OSError
  | UnicodeDecodeError
  | JSONDecodeError
  | MultiplePrimaryKey
  | DocumentAlreadyExists
  | DocumentDoesNotExist
  | NotModelled.

Inductive result (A : Type) : Type :=
  | Ok (a : A)
  | Raise (e : exn).
Arguments Ok {A} a.
Arguments Raise {A} e.

Definition exn_eqb (a b : exn) : bool :=
  match a, b with
  | KeyError, KeyError | TypeError, TypeError | ValueError, ValueError
  | FileNotFoundError, FileNotFoundError | IsADirectoryError, IsADirectoryError
  | NotADirectoryError, NotADirectoryError | PermissionError, PermissionError
  | OSError, OSError | UnicodeDecodeError, UnicodeDecodeError
  | JSONDecodeError, JSONDecodeError
  | MultiplePrimaryKey, MultiplePrimaryKey
  | DocumentAlreadyExists, DocumentAlreadyExists
  | DocumentDoesNotExist, DocumentDoesNotExist
  | NotModelled, NotModelled => true
  | _, _ => false
  end.

Definition M (S A : Type) : Type := S -> result A * S.

Definition ret {S A} (a : A) : M S A := fun s => (Ok a, s).

Definition bind {S A B} (m : M S A) (k : A -> M S B) : M S B :=
  fun s =>
    match m s with
    | (Ok a, s') => k a s'
    | (Raise e, s') => (Raise e, s')
    end.

Definition raise {S A} (e : exn) : M S A := fun s => (Raise e, s).

(** [try: body  except e: handler] *)
Definition try_except {S A} (body : M S A) (e : exn) (handler : M S A) : M S A :=
  fun s =>
    match body s with
    | (Raise e', s') => if exn_eqb e' e then handler s' else (Raise e', s')
    | r => r
    end.

(** Runs [m] and hands back how it ended, for programs that go on after a
    call that raised. *)
Definition attempt {S A} (m : M S A) : M S (result A) :=
  fun s => let (r, s') := m s in (Ok r, s').

Definition gets {S A} (f : S -> A) : M S A := fun s => (Ok (f s), s).
Definition modify {S} (f : S -> S) : M S unit := fun s => (Ok tt, f s).
Definition lift_result {S A} (r : result A) : M S A := fun s => (r, s).

(** Whatever the outcome of [m], the part [f] of the state is as before. *)
Definition preserves {S X A} (f : S -> X) (m : M S A) : Prop :=
  forall s r s', m s = (r, s') -> f s' = f s.

Declare Scope py_scope.
Delimit Scope py_scope with py.
Notation "'let*' x ':=' c 'in' k" := (bind c (fun x => k))
  (at level 10, x name, c at level 100, k at level 200) : py_scope.
Notation "c ';;;' k" := (bind c (fun _ => k))
  (at level 100, k at level 200, right associativity) : py_scope.
Local Open Scope py_scope.

(** ** The store backend: class [WormDB]

    [read] and [write] never look inside the cache, so this part is kept
    generic in the type [C] of the object bound to [CACHE].  The codec is a
    parameter: [json_load bytes] is what [json.load] does on a file that
    holds those bytes, the object it builds or the exception it raises
    ([JSONDecodeError] for text that is not JSON, [UnicodeDecodeError] for
    bytes that are not text); [json_dump] is the text [json.dump] writes.

    The file system is part of the state.  [disk] maps the path of every
    regular file to its bytes and [dirs] holds the paths that are
    directories.  [refused] is what else the operating system holds against
    opening a path in a given mode: a permission that is missing, a
    directory on the way that does not exist.  Nothing stands at the empty
    path, which is the [DB_PATH] of a module on which [WormDB(path)] was
    never called. *)

(** The two ways the module opens a file. *)
Inductive mode : Type := ForReading | ForWriting.

(** The error numbers of a refused [open], and the exception Python makes
    of each. *)
Inductive errno : Type := ENOENT | EACCES | EISDIR | ENOTDIR | EOTHER.

Definition OSError_of (e : errno) : exn :=
  match e with
  | ENOENT => FileNotFoundError
  | EACCES => PermissionError
  | EISDIR => IsADirectoryError
  | ENOTDIR => NotADirectoryError
  | EOTHER => OSError
  end.

(** The exceptions a refused [open] ends in. *)
Definition is_OSError (e : exn) : bool :=
  match e with
  | FileNotFoundError | IsADirectoryError | NotADirectoryError | PermissionError
  | OSError => true
  | _ => false
  end.

Record process (C : Type) : Type := Process {
  DB_PATH : string;
  CACHE : C;
  disk : gmap string string;
  dirs : gset string;
  refused : mode -> string -> option errno
}.
Arguments Process {C} _ _ _ _ _.
Arguments DB_PATH {C} _.
Arguments CACHE {C} _.
Arguments disk {C} _.
Arguments dirs {C} _.
Arguments refused {C} _ _ _.

Definition set_DB_PATH {C} (path : string) (p : process C) : process C :=
  Process path (CACHE p) (disk p) (dirs p) (refused p).
Definition set_CACHE {C} (c : C) (p : process C) : process C :=
  Process (DB_PATH p) c (disk p) (dirs p) (refused p).
Definition set_disk {C} (d : gmap string string) (p : process C) : process C :=
  Process (DB_PATH p) (CACHE p) d (dirs p) (refused p).

(** What stands at a path. *)
Inductive node : Type :=
  | Regular (bytes : string)
  | Directory.

Definition stat {C} (p : process C) (path : string) : option node :=
  if String.eqb path "" then None
  else match disk p !! path with
       | Some bytes => Some (Regular bytes)
       | None => if bool_decide (path ∈ dirs p) then Some Directory else None
       end.

Definition os_path_exists {C} (p : process C) (path : string) : bool :=
  match stat p path with
  | Some _ => true
  | None => false
  end.

(** The exception [open(path, "r")] raises, if it raises. *)
Definition open_read_error {C} (p : process C) (path : string) : option exn :=
  if String.eqb path "" then Some FileNotFoundError
  else match refused p ForReading path with
       | Some e => Some (OSError_of e)
       | None =>
           match stat p path with
           | Some (Regular _) => None
           | Some Directory => Some IsADirectoryError
           | None => Some FileNotFoundError
           end
       end.

(** The exception [open(path, "w")] raises, if it raises.  A file that is
    not there is made. *)
Definition open_write_error {C} (p : process C) (path : string) : option exn :=
  if String.eqb path "" then Some FileNotFoundError
  else match refused p ForWriting path with
       | Some e => Some (OSError_of e)
       | None =>
           match stat p path with
           | Some Directory => Some IsADirectoryError
           | _ => None
           end
       end.

Section Backend.
Context {C : Type}.
Variable empty_dict : C.
Variable json_load : string -> result C.
Variable json_dump : C -> string.

(** [open(path, "r")], handing over the bytes of the file. *)
Definition open_read (path : string) : M (process C) string :=
  fun p =>
    match open_read_error p path with
    | Some e => (Raise e, p)
    | None => (Ok (from_option id "" (disk p !! path)), p)
    end.

(** [open(path, "w")]: the file is made, or emptied. *)
Definition open_write (path : string) : M (process C) unit :=
  fun p =>
    match open_write_error p path with
    | Some e => (Raise e, p)
    | None => (Ok tt, set_disk (<[path := ""]> (disk p)) p)
    end.

(** [os.path.getsize]; the size of a directory is left to the file
    system. *)
Definition os_path_getsize (path : string) : M (process C) nat :=
  fun p =>
    match stat p path with
    | Some (Regular bytes) => (Ok (String.length bytes), p)
    | Some Directory => (Raise NotModelled, p)
    | None => (Raise FileNotFoundError, p)
    end.

Definition json_load_text (bytes : string) : M (process C) C :=
  lift_result (json_load bytes).

(** [WormDB.read] *)
Definition read : M (process C) unit :=
  try_except
    (let* path := gets DB_PATH in
     let* bytes := open_read path in
     let* parsed := json_load_text bytes in
     modify (set_CACHE parsed))
    JSONDecodeError
    (let* path := gets DB_PATH in
     let* size := os_path_getsize path in
     if Nat.eqb size 0
     then modify (set_CACHE empty_dict)
     else raise JSONDecodeError).

(** [WormDB.write] *)
Definition write : M (process C) unit :=
  let* path := gets DB_PATH in
  open_write path ;;;
  let* cache := gets CACHE in
  modify (fun p => set_disk (<[path := json_dump cache]> (disk p)) p).

(** [WormDB.__init__] *)
Definition WormDB__init__ (db_path : string) : M (process C) unit :=
  modify (set_DB_PATH db_path) ;;;
  let* p := gets id in
  if os_path_exists p (DB_PATH p) then read else ret tt.
End Backend.


(** ** Objects of the document layer

    A record is a dictionary object.  The heap maps the reference of every
    dictionary object to its present contents; [alloc] hands out references
    that were never used.  In the document layer [CACHE] maps a collection
    name to the list of the references of its records. *)

Definition loc : Type := nat.
Definition record : Type := dict value.
Definition store : Type := dict (list loc).

Record world : Type := World {
  proc : process store;
  heap : gmap loc record;
  next_loc : loc;
  next_oid : nat
}.

Definition set_proc (p : process store) (w : world) : world :=
  World p (heap w) (next_loc w) (next_oid w).
Definition set_heap (h : gmap loc record) (w : world) : world :=
  World (proc w) h (next_loc w) (next_oid w).

(** A computation on the globals, run inside the whole state. *)
Definition lift_proc {A} (m : M (process store) A) : M world A :=
  fun w => let (r, p) := m (proc w) in (r, set_proc p w).

(** [{}] evaluated where a new dictionary object is wanted. *)
Definition alloc (r : record) : M world loc :=
  fun w =>
    (Ok (next_loc w),
     World (proc w) (<[next_loc w := r]> (heap w)) (S (next_loc w)) (next_oid w)).

Definition deref (h : gmap loc record) (l : loc) : record :=
  from_option id [] (h !! l).

(** The items of the dictionary object [l]. *)
Definition dict_items (l : loc) : M world record :=
  gets (fun w => deref (heap w) l).

(** [d[key]] on a dictionary object. *)
Definition getitem (l : loc) (key : string) : M world value :=
  let* d := dict_items l in
  match dict_get d key with
  | Some v => ret v
  | None => raise KeyError
  end.

(** [d.get(key)] on a dictionary object. *)
Definition dict_get_or_None (l : loc) (key : string) : M world value :=
  let* d := dict_items l in
  ret (from_option id VNone (dict_get d key)).

(** [d[key] = v] on a dictionary object. *)
Definition setitem (l : loc) (key : string) (v : value) : M world unit :=
  modify (fun w => set_heap (<[l := dict_set (deref (heap w) l) key v]> (heap w)) w).

(** [CACHE[name]] *)
Definition CACHE_getitem (name : string) : M world (list loc) :=
  let* c := gets (fun w => CACHE (proc w)) in
  match dict_get c name with
  | Some seq => ret seq
  | None => raise KeyError
  end.

(** [CACHE[name] = seq] *)
Definition CACHE_setitem (name : string) (seq : list loc) : M world unit :=
  modify (fun w => set_proc (set_CACHE (dict_set (CACHE (proc w)) name seq) (proc w)) w).

(** [CACHE[name].append(x)]: the list object bound to [name] grows by one. *)
Definition CACHE_append (name : string) (x : loc) : M world unit :=
  let* seq := CACHE_getitem name in
  CACHE_setitem name (seq ++ [x]).

(** [target.update(other)] on two dictionary objects. *)
Definition update_at (target other : loc) : M world unit :=
  let* items := dict_items other in
  modify (fun w =>
            set_heap (<[target := dict_update (deref (heap w) target) items]> (heap w)) w).

Fixpoint mapM {S A B} (f : A -> M S B) (l : list A) : M S (list B) :=
  match l with
  | [] => ret []
  | a :: l' => let* b := f a in let* bs := mapM f l' in ret (b :: bs)
  end.

Fixpoint filterM {S A} (f : A -> M S bool) (l : list A) : M S (list A) :=
  match l with
  | [] => ret []
  | a :: l' =>
      let* keep := f a in
      let* rest := filterM f l' in
      ret (if keep then a :: rest else rest)
  end.

Fixpoint foldM {S A B} (f : B -> A -> M S B) (l : list A) (b : B) : M S B :=
  match l with
  | [] => ret b
  | a :: l' => let* b' := f b a in foldM f l' b'
  end.

(** [x == y] on two dictionary objects: the same object, or equal contents. *)
Definition record_eq (h : gmap loc record) (x y : loc) : bool :=
  Nat.eqb x y || py_eq (VDict (deref h x)) (VDict (deref h y)).

(** [seq.index(x)] *)
Fixpoint list_index (h : gmap loc record) (seq : list loc) (x : loc) : result nat :=
  match seq with
  | [] => Raise ValueError
  | y :: seq' =>
      if record_eq h y x then Ok 0%nat
      else match list_index h seq' x with
           | Ok i => Ok (S i)
           | Raise e => Raise e
           end
  end.

(** [seq.remove(x)], giving the list as it is afterwards. *)
Fixpoint list_remove (h : gmap loc record) (seq : list loc) (x : loc)
  : result (list loc) :=
  match seq with
  | [] => Raise ValueError
  | y :: seq' =>
      if record_eq h y x then Ok seq'
      else match list_remove h seq' x with
           | Ok rest => Ok (y :: rest)
           | Raise e => Raise e
           end
  end.

(** [max(seq)] for a list of integers and booleans: the first greatest
    element.  A single element is returned without any comparison.  With two
    or more elements of which one is no integer, Python raises [TypeError]
    either here or, for lists of strings or of lists, at the [+ 1] that
    [_next_id] applies to the result; the two are one outcome here. *)
Fixpoint max_from (best : value) (zbest : Z) (rest : list value) : result value :=
  match rest with
  | [] => Ok best
  | v :: rest' =>
      match as_int v with
      | Some z => if Z.ltb zbest z then max_from v z rest' else max_from best zbest rest'
      | None => Raise TypeError
      end
  end.

Definition py_max (seq : list value) : result value :=
  match seq with
  | [] => Raise ValueError
  | [v] => Ok v
  | v :: rest =>
      match as_int v with
      | Some z => max_from v z rest
      | None => Raise TypeError
      end
  end.

(** [v + 1] *)
Definition py_add_1 (v : value) : result Z :=
  match as_int v with
  | Some z => Ok (z + 1)
  | None => Raise TypeError
  end.

(** ** Class [Field] *)

Record Field : Type := mkField {
  field_name : option string;
  field_primary_key : bool;
  field_default : value
}.

(** [Field.__set_name__] *)
Definition Field__set_name__ (self : Field) (name : string) : Field :=
  match field_name self with
  | None => mkField (Some name) (field_primary_key self) (field_default self)
  | Some _ => self
  end.

(** What a class body binds to a name: a field descriptor, the metaclass
    itself (the marker [meta_class = DocumentMeta] of the base class), or
    anything else. *)
Inductive attr : Type :=
  | AField (f : Field)
  | ADocumentMeta
  | AOther.

Record Meta : Type := mkMeta {
  fields : list (string * Field);
  id_field : option string
}.

(** A class made by [DocumentMeta]: its [__name__], its namespace, and the
    two dictionaries the metaclass puts into the namespace.  [_meta] is never
    changed once the class exists and is kept by value; [_data] is the
    reference of the dictionary object created in [__new__].  The methods
    of its instances and the property [pk] are those of [Document]: a class
    whose body binds one of their names to something else is outside the
    embedding. *)
Record Class : Type := mkClass {
  cls_name : string;
  cls_attrs : dict attr;
  _meta : Meta;
  _data : loc
}.

(** An instance.  [Document] defines no [__init__] and no method stores an
    attribute on an instance, so an instance carries its identity and its
    class, and [getattr(instance, "_data")] finds the attribute of the
    class. *)
Record Instance : Type := mkInstance {
  inst_id : nat;
  inst_class : Class
}.

Definition getattr_data (instance : Instance) : loc := _data (inst_class instance).

(** [Field.__get__] for an access through an instance.  A descriptor found
    in a class namespace has had [__set_name__] applied and has a name; a
    descriptor without one would use the key [None], which string-keyed
    records leave out. *)
Definition Field__get__ (self : Field) (instance : Instance) : M world value :=
  match field_name self with
  | Some name => dict_get_or_None (getattr_data instance) name
  | None => raise NotModelled
  end.

(** [Field.__set__] *)
Definition Field__set__ (self : Field) (instance : Instance) (v : value)
  : M world unit :=
  let v := if is_None v && negb (is_None (field_default self))
           then field_default self else v in
  match field_name self with
  | Some name => setitem (getattr_data instance) name v
  | None => raise NotModelled
  end.

(** ** Metaclass [DocumentMeta] *)

(** [DocumentMeta._next_id] *)
Definition _next_id (name : string) : M world Z :=
  try_except
    (let* coll := CACHE_getitem name in
     let* seq := mapM (fun instance => getitem instance "id") coll in
     match seq with
     | _ :: _ =>
         let* last_id := lift_result (py_max seq) in
         lift_result (py_add_1 last_id)
     | [] => ret 1
     end)
    KeyError
    (ret 1).

(** The loop of [__new__] over [attrs.items()].  It runs before the class
    exists, hence before Python calls [__set_name__]: [value.name] is the
    name given to the constructor of the field, [None] when none was given. *)
Fixpoint scan_attrs (items : list (string * attr)) (meta : Meta) : result Meta :=
  match items with
  | [] => Ok meta
  | (key, AField f) :: items' =>
      let meta := mkMeta (fields meta ++ [(key, f)]) (id_field meta) in
      if field_primary_key f then
        match id_field meta with
        | None => scan_attrs items' (mkMeta (fields meta) (field_name f))
        | Some _ => Raise MultiplePrimaryKey
        end
      else scan_attrs items' meta
  | _ :: items' => scan_attrs items' meta
  end.

(** What [type.__new__] does to one item of the namespace. *)
Definition set_name_of (kv : string * attr) : string * attr :=
  match snd kv with
  | AField f => (fst kv, AField (Field__set_name__ f (fst kv)))
  | a => (fst kv, a)
  end.

(** [type.__new__]: the class object is made from the namespace, and every
    descriptor bound in it is told the name it is bound to.  Each name is
    taken to bind a field object of its own.  The entries of
    [_meta["fields"]] are those same objects and learn their names with
    them, except an entry under a key of [rebound]: [__new__] has bound that
    key to another object since, and Python never names the old one. *)
Definition type__new__ (name : string) (attrs : dict attr) (meta : Meta) (data : loc)
    (rebound : list string) : Class :=
  mkClass name
    (map set_name_of attrs)
    (mkMeta
       (map (fun kv =>
               if existsb (String.eqb (fst kv)) rebound then kv
               else (fst kv, Field__set_name__ (snd kv) (fst kv)))
            (fields meta))
       (id_field meta))
    data.

Definition is_DocumentMeta (a : option attr) : bool :=
  match a with Some ADocumentMeta => true | _ => false end.

(** [DocumentMeta.__new__] *)
Definition DocumentMeta__new__ (name : string) (attrs : dict attr) : M world Class :=
  let meta := mkMeta [] None in
  let attrs := dict_set attrs "_meta" AOther in
  let* data := alloc [] in
  let attrs := dict_set attrs "_data" AOther in
  if is_DocumentMeta (dict_get attrs "meta_class") then
    ret (type__new__ name attrs meta data [])
  else
    let* meta := lift_result (scan_attrs attrs meta) in
    match id_field meta with
    | None =>
        let field_name := "id" in
        let id_field := mkField (Some field_name) true VNone in
        let declared := fields meta in
        let meta := mkMeta ((field_name, id_field) :: declared) (Some field_name) in
        let attrs := dict_set attrs field_name (AField id_field) in
        let* next := _next_id name in
        setitem data field_name (VInt next) ;;;
        ret (type__new__ name attrs meta data [field_name])
    | Some _ => ret (type__new__ name attrs meta data [])
    end.

(** [DocumentMeta.__call__]: [cls()] makes a new object of the class. *)
Definition DocumentMeta__call__ (cls : Class) : M world Instance :=
  fun w =>
    (Ok (mkInstance (next_oid w) cls),
     World (proc w) (heap w) (next_loc w) (S (next_oid w))).

(** ** Class [Document] *)

Section Document.
(** [json.dumps] on the tree an object stands for. *)
Variable json_dumps : value -> string.

(** What [json.dump] walks through when given [CACHE]: every reference
    replaced by the present contents of the dictionary it points to. *)
Definition snapshot (h : gmap loc record) (c : store) : value :=
  VDict (map (fun kv => (fst kv, VList (map (fun l => VDict (deref h l)) (snd kv)))) c).

Definition WormDB_write : M world unit :=
  fun w => lift_proc (write (fun c => json_dumps (snapshot (heap w) c))) w.

(** [Document.get_class_name] *)
Definition get_class_name (cls : Class) : string := cls_name cls.

(** The property [Document.pk] *)
Definition pk (self : Instance) : option string := id_field (_meta (inst_class self)).

(** [Document.to_dict] *)
Definition to_dict (self : Instance) : loc := getattr_data self.

(** [getattr(self, name)] where the class binds [name] to a descriptor.
    Other names resolve through the instance dictionary and the base
    classes, which are not part of the embedding. *)
Definition getattr (self : Instance) (name : string) : M world value :=
  match dict_get (cls_attrs (inst_class self)) name with
  | Some (AField f) => Field__get__ f self
  | _ => raise NotModelled
  end.

(** [self.name = v] where the class binds [name] to a descriptor. *)
Definition setattr (self : Instance) (name : string) (v : value) : M world unit :=
  match dict_get (cls_attrs (inst_class self)) name with
  | Some (AField f) => Field__set__ f self v
  | _ => raise NotModelled
  end.

(** A dictionary [{key: v}] unpacked into the keywords of a call of
    [get] or [get_raw]: keywords must be strings, and the keyword [cls]
    meets the first parameter of a class method, which has its value
    already. *)
Definition keywords (key : option string) (v : value) : M world (dict value) :=
  match key with
  | Some k => if String.eqb k "cls" then raise TypeError else ret [(k, v)]
  | None => raise TypeError
  end.

(** [Document.get_raw] *)
Definition get_raw (cls : Class) (kwargs : dict value) : M world (list loc) :=
  try_except
    (let* seq := CACHE_getitem (get_class_name cls) in
     foldM (fun seq kv =>
              filterM (fun _instance =>
                         let* x := getitem _instance (fst kv) in
                         ret (py_eq (snd kv) x)) seq)
           kwargs seq)
    KeyError
    (ret []).

(** [Document.get] *)
Definition get (cls : Class) (kwargs : dict value) : M world (list Instance) :=
  let* seq := get_raw cls kwargs in
  foldM (fun query instance =>
           let* _instance := DocumentMeta__call__ cls in
           let* items := dict_items instance in
           foldM (fun _ kv => setitem (getattr_data _instance) (fst kv) (snd kv))
                 items tt ;;;
           ret (query ++ [_instance]))
        seq [].

(** [Document.save] *)
Definition save (self : Instance) : M world unit :=
  let data := to_dict self in
  let class_name := get_class_name (inst_class self) in
  try_except (CACHE_getitem class_name ;;; ret tt) KeyError
             (CACHE_setitem class_name []) ;;;
  let* key := match pk self with
              | Some k => dict_get_or_None (getattr_data self) k
              | None => ret VNone
              end in
  let* kwargs := keywords (pk self) key in
  let* found := get (inst_class self) kwargs in
  match found with
  | [] => CACHE_append class_name data
  | _ :: _ => raise DocumentAlreadyExists
  end ;;;
  WormDB_write.

(** The evaluation of [{self.pk: getattr(self, self.pk)}] and its use as
    keywords. *)
Definition pk_keywords (self : Instance) : M world (dict value) :=
  match pk self with
  | Some k => let* v := getattr self k in keywords (Some k) v
  | None => raise TypeError
  end.

(** [Document.update] *)
Definition update (self : Instance) : M world unit :=
  let* kwargs := pk_keywords self in
  let* query := get_raw (inst_class self) kwargs in
  match query with
  | first :: _ =>
      let data := to_dict self in
      let class_name := get_class_name (inst_class self) in
      let* coll := CACHE_getitem class_name in
      let* h := gets heap in
      let* _index := lift_result (list_index h coll first) in
      let target := nth _index coll first in
      update_at target data ;;;
      WormDB_write
  | [] => raise DocumentDoesNotExist
  end.

(** [Document.delete] *)
Definition delete (self : Instance) : M world unit :=
  let* kwargs := pk_keywords self in
  let* query := get_raw (inst_class self) kwargs in
  match query with
  | first :: _ =>
      let class_name := get_class_name (inst_class self) in
      let* coll := CACHE_getitem class_name in
      let* h := gets heap in
      let* rest := lift_result (list_remove h coll first) in
      CACHE_setitem class_name rest ;;;
      WormDB_write
  | [] => raise DocumentDoesNotExist
  end.

(** The file at [DB_PATH] holds the dump of what [CACHE] reaches. *)
Definition flushed (w : world) : Prop :=
  disk (proc w) !! DB_PATH (proc w) =
    Some (json_dumps (snapshot (heap w) (CACHE (proc w)))).
End Document.

(** ** Notions used in the statements *)

(** One criterion holds of a record: the key is there with an equal value. *)
Definition holds_key (h : gmap loc record) (kv : string * value) (l : loc) : bool :=
  match dict_get (deref h l) (fst kv) with
  | Some x => py_eq (snd kv) x
  | None => false
  end.

(** A criteria mapping holds of a record when each of its items does. *)
Definition matches (h : gmap loc record) (kwargs : dict value) (l : loc) : bool :=
  forallb (fun kv => holds_key h kv l) kwargs.

(** The [id] values of the records of a collection, [None] when one of the
    records has no [id]. *)
Fixpoint all_ids (h : gmap loc record) (coll : list loc) : option (list value) :=
  match coll with
  | [] => Some []
  | l :: coll' =>
      match dict_get (deref h l) "id", all_ids h coll' with
      | Some v, Some vs => Some (v :: vs)
      | _, _ => None
      end
  end.

Definition int_of (v : value) : Z := from_option id 0 (as_int v).

(** The auto-increment rule in the words of the specification: one more
    than the greatest [id] of the collection of the schema; one when the
    collection is absent or empty, or a record has no [id]. *)
Definition spec_next_id (w : world) (name : string) : Z :=
  match dict_get (CACHE (proc w)) name with
  | None => 1
  | Some coll =>
      match all_ids (heap w) coll with
      | None => 1
      | Some [] => 1
      | Some (v :: vs) => 1 + fold_left Z.max (map int_of vs) (int_of v)
      end
  end.

(** The state once [DocumentMeta.__new__] has made the empty dictionary
    that becomes [_data]. *)
Definition after_alloc (w : world) : world :=
  World (proc w) (<[next_loc w := []]> (heap w)) (S (next_loc w)) (next_oid w).

(** Where every record of the collection has an [id], every such [id] is an
    integer; [True] and [False] count as 1 and 0. *)
Definition integer_ids (w : world) (name : string) : Prop :=
  forall coll ids,
    dict_get (CACHE (proc w)) name = Some coll ->
    all_ids (heap w) coll = Some ids ->
    Forall (fun v => is_Some (as_int v)) ids.

(** Every record of the collection is an object that was allocated. *)
Definition allocated (w : world) (name : string) : Prop :=
  forall coll l,
    dict_get (CACHE (proc w)) name = Some coll -> In l coll -> (l < next_loc w)%nat.

(** ** Programs used as test inputs *)

(** An operating system that lets every file be opened. *)
Definition nothing_refused : mode -> string -> option errno := fun _ _ => None.

(** The state after [WormDB("db.json")] in a new process, no file being
    there: nothing is loaded and nothing is allocated. *)
Definition empty_world : world :=
  World (Process "db.json" [] ∅ ∅ nothing_refused) ∅ 0%nat 0%nat.

(** A process whose [CACHE] holds the given collection, every record an
    object of its own, numbered in order, as [json.load] builds them.  The
    runs below never read a file; the file system is left empty, and
    every file can be opened. *)
Definition loaded_world (name : string) (records : list record) : world :=
  World (Process "db.json" [(name, seq 0 (length records))] ∅ ∅ nothing_refused)
        (list_to_map (zip (seq 0 (length records)) records))
        (length records) 0%nat.

(** [class User(Document): name = Field()] *)
Definition User_attrs : dict attr := [("name", AField (mkField None false VNone))].

(** The class that declaration gives when no record of a user exists. *)
Definition User : Class :=
  mkClass "User"
    [("name", AField (mkField (Some "name") false VNone));
     ("_meta", AOther); ("_data", AOther);
     ("id", AField (mkField (Some "id") true VNone))]
    (mkMeta [("id", mkField (Some "id") true VNone);
             ("name", mkField (Some "name") false VNone)]
            (Some "id"))
    0%nat.

(** [class Pair(Document): a = Field(primary_key=True); b = Field(primary_key=True)] *)
Definition Pair_attrs : dict attr :=
  [("a", AField (mkField None true VNone)); ("b", AField (mkField None true VNone))].

(** [class Account(Document): uid = Field(name="uid", primary_key=True);
    owner = Field()] *)
Definition Account_attrs : dict attr :=
  [("uid", AField (mkField (Some "uid") true VNone));
   ("owner", AField (mkField None false VNone))].

Definition alice : record := [("id", VInt 1); ("name", VStr "Alice")].
Definition bob : record := [("id", VInt 2); ("name", VStr "Bob")].

(** [a = User(); b = User(); a.name = "Alice"], reading [b.name] before and
    after the assignment. *)
Definition two_instances : M world (Instance * Instance * value * value) :=
  let* User := DocumentMeta__new__ "User" User_attrs in
  let* a := DocumentMeta__call__ User in
  let* b := DocumentMeta__call__ User in
  let* before := getattr b "name" in
  setattr a "name" (VStr "Alice") ;;;
  let* after := getattr b "name" in
  ret (a, b, before, after).

Section Scenarios.
Variable json_dumps : value -> string.

(** The scenario of the specification: Alice is saved and looked up by
    id, then Bob is made and saved, then all users are fetched.  The
    program reports the names found under id 1, the id Bob carries, how
    Bob's [save] ended, and the names of all users fetched at the end. *)
Definition alice_then_bob
  : M world (list value * value * result unit * list value) :=
  let* User := DocumentMeta__new__ "User" User_attrs in
  let* a := DocumentMeta__call__ User in
  setattr a "name" (VStr "Alice") ;;;
  save json_dumps a ;;;
  let* found := get User [("id", VInt 1)] in
  let* names := mapM (fun i => getattr i "name") found in
  let* b := DocumentMeta__call__ User in
  setattr b "name" (VStr "Bob") ;;;
  let* b_id := getattr b "id" in
  let* b_saved := attempt (save json_dumps b) in
  let* everyone := get User [] in
  let* all_names := mapM (fun i => getattr i "name") everyone in
  ret (names, b_id, b_saved, all_names).

(** An account with [uid] 7 is saved into a collection that already holds
    one; the program reports how [save] ended and the collection
    afterwards. *)
Definition save_duplicate_uid : M world (result unit * value) :=
  let* Account := DocumentMeta__new__ "Account" Account_attrs in
  let* a := DocumentMeta__call__ Account in
  setattr a "uid" (VInt 7) ;;;
  let* saved := attempt (save json_dumps a) in
  let* w := gets id in
  ret (saved, snapshot (heap w) (CACHE (proc w))).

(** Bob is saved next to Alice, is then given Alice's id, and is saved
    again; the program reports how the second [save] ended and the store
    before and after it. *)
Definition save_again_with_taken_id : M world (result unit * value * value) :=
  let* User := DocumentMeta__new__ "User" User_attrs in
  let* a := DocumentMeta__call__ User in
  setattr a "name" (VStr "Bob") ;;;
  save json_dumps a ;;;
  setattr a "id" (VInt 1) ;;;
  let* w1 := gets id in
  let* saved := attempt (save json_dumps a) in
  let* w2 := gets id in
  ret (saved, snapshot (heap w1) (CACHE (proc w1)),
       snapshot (heap w2) (CACHE (proc w2))).
End Scenarios.

(** [User.get()] on a loaded collection; the program reports the identities
    of the instances returned, and the name and the id each of them shows. *)
Definition get_everyone : M world (list nat * list value * list value) :=
  let* User := DocumentMeta__new__ "User" User_attrs in
  let* found := get User [] in
  let* names := mapM (fun i => getattr i "name") found in
  let* ids := mapM (fun i => getattr i "id") found in
  ret (map inst_id found, names, ids).

(** Stand-ins for the codec: the text [{}] is the empty store, anything else
    does not decode; a dump tells the empty mapping from the others. *)
Definition toy_load (text : string) : result store :=
  if String.eqb text "{}" then Ok [] else Raise JSONDecodeError.

Definition toy_dumps (v : value) : string :=
  match v with
  | VDict [] => "{}"
  | _ => "{...}"
  end.

(** Alice as an instance of [User] that was assigned a name and not saved. *)
Definition alice_unsaved : world :=
  World (Process "db.json" [] ∅ ∅ nothing_refused) (<[0%nat := alice]> ∅) 1%nat 1%nat.

(** ** Further notions: keys, well-formed values, class bodies *)

(** The record holds something under the key. *)
Definition has_key (h : gmap loc record) (key : string) (l : loc) : bool :=
  match dict_get (deref h l) key with
  | Some _ => true
  | None => false
  end.

(** No string occurs twice. *)
Fixpoint distinct (keys : list string) : bool :=
  match keys with
  | [] => true
  | k :: keys' => negb (existsb (String.eqb k) keys') && distinct keys'
  end.

(** A value a Python program can build: no dictionary in it holds a key
    twice. *)
Fixpoint wf_value (v : value) : bool :=
  match v with
  | VList l => forallb wf_value l
  | VDict d => distinct (map fst d) && forallb (fun kv => wf_value (snd kv)) d
  | _ => true
  end.




(** A class body in which a primary-key field that was given a name is
    followed by another primary-key field. *)
Definition named_key_then_key (items : list (string * attr)) : Prop :=
  exists l1 k1 f1 l2 k2 f2 l3,
    items = l1 ++ (k1, AField f1) :: l2 ++ (k2, AField f2) :: l3 /\
    field_primary_key f1 = true /\ field_name f1 <> None /\
    field_primary_key f2 = true.



(** ** Further test inputs *)

(** [class Pair(Document): a = Field(name="a", primary_key=True);
    b = Field(primary_key=True)] *)
Definition named_pair_attrs : dict attr :=
  [("a", AField (mkField (Some "a") true VNone)); ("b", AField (mkField None true VNone))].

(** The body of the base class: [meta_class = DocumentMeta]. *)
Definition Document_attrs : dict attr := [("meta_class", ADocumentMeta)].

(** A process that has loaded the users Alice and Bob. *)
Definition two_users : world := loaded_world "User" [alice; bob].

(** [User] as declared in that process: its [_data] is the third object. *)
Definition User_loaded : Class := mkClass "User" (cls_attrs User) (_meta User) 2%nat.

(** That process after [class User], [a = User()] and [a.id = 2]. *)
Definition bob_picked : world :=
  World (proc two_users) (<[2%nat := [("id", VInt 2)]]> (heap two_users)) 3%nat 1%nat.

(** The same after [a.name = "Robert"] as well. *)
Definition bob_renamed : world :=
  World (proc two_users)
        (<[2%nat := [("id", VInt 2); ("name", VStr "Robert")]]> (heap two_users))
        3%nat 1%nat.

(** The class the declaration of [Account] gives in a new process. *)
Definition Account : Class :=
  mkClass "Account"
    [("uid", AField (mkField (Some "uid") true VNone));
     ("owner", AField (mkField (Some "owner") false VNone));
     ("_meta", AOther); ("_data", AOther)]
    (mkMeta [("uid", mkField (Some "uid") true VNone);
             ("owner", mkField (Some "owner") false VNone)]
            (Some "uid"))
    0%nat.




(** The store that holds Alice, as the tree [json.dump] walks through, and
    a stand-in for the codec on such trees that knows this store and the
    empty one. *)
Definition alice_store : value := VDict [("User", VList [VDict alice])].

Definition tree_dump (v : value) : string :=
  if py_eq v alice_store then "{User: [{id: 1, name: Alice}]}" else toy_dumps v.

Definition tree_load (text : string) : result value :=
  if String.eqb text "{User: [{id: 1, name: Alice}]}" then Ok alice_store
  else if String.eqb text "{}" then Ok (VDict [])
  else Raise JSONDecodeError.

(** A process that holds that store and has written nothing yet. *)
Definition alice_process : process value :=
  Process "db.json" alice_store ∅ ∅ nothing_refused.

(** A process whose file holds the empty store while its cache holds a
    collection. *)
Definition stale_process : process store :=
  Process "db.json" [("User", [0%nat])] {["db.json" := "{}"]} ∅ nothing_refused.


(** ** Facts about dictionaries and the monad *)

Lemma dict_get_set_eq {A} (d : dict A) (k : string) (v : A) :
  dict_get (dict_set d k v) k = Some v.
Proof.
  induction d as [|[k' v'] d IH]; simpl.
  - now rewrite String.eqb_refl.
  - destruct (String.eqb k' k) eqn:E; simpl; rewrite E; auto.
Qed.

Lemma dict_get_set_ne {A} (d : dict A) (k k' : string) (v : A) :
  k <> k' -> dict_get (dict_set d k v) k' = dict_get d k'.
Proof.
  intros Hne. induction d as [|[k0 v0] d IH]; simpl.
  - destruct (String.eqb k k') eqn:E; [apply String.eqb_eq in E; contradiction | reflexivity].
  - destruct (String.eqb k0 k) eqn:E; simpl.
    + apply String.eqb_eq in E. subst k0.
      destruct (String.eqb k k') eqn:E'; [apply String.eqb_eq in E'; contradiction | reflexivity].
    + destruct (String.eqb k0 k'); auto.
Qed.

Lemma bind_Ok_inv {S A B} (m : M S A) (k : A -> M S B) (s s' : S) (b : B) :
  bind m k s = (Ok b, s') ->
  exists a s1, m s = (Ok a, s1) /\ k a s1 = (Ok b, s').
Proof.
  unfold bind. destruct (m s) as [[a|e] s1]; intros H.
  - eauto.
  - discriminate.
Qed.

Lemma bind_Raise_inv {S A B} (m : M S A) (k : A -> M S B) (s s' : S) (e : exn) :
  bind m k s = (Raise e, s') ->
  m s = (Raise e, s') \/ exists a s1, m s = (Ok a, s1) /\ k a s1 = (Raise e, s').
Proof.
  unfold bind. destruct (m s) as [[a|e'] s1]; intros H.
  - right. eauto.
  - left. injection H as -> ->. reflexivity.
Qed.

Lemma bind_run {S A B} (m : M S A) (k : A -> M S B) (s s1 : S) (a : A) :
  m s = (Ok a, s1) -> bind m k s = k a s1.
Proof. unfold bind. now intros ->. Qed.

Lemma bind_raise {S A B} (m : M S A) (k : A -> M S B) (s s1 : S) (e : exn) :
  m s = (Raise e, s1) -> bind m k s = (Raise e, s1).
Proof. unfold bind. now intros ->. Qed.

(** Peels the first computation off a sequence that returned. *)
Ltac bind_inv H :=
  let a := fresh "a" in
  let s := fresh "s" in
  let H1 := fresh "Hrun" in
  apply bind_Ok_inv in H; destruct H as (a & s & H1 & H).

(** ** The store backend *)

Section BackendFacts.
Context {C : Type}.
Variable empty_dict : C.
Variable json_load : string -> result C.

Lemma stat_regular (p : process C) (path bytes : string) :
  stat p path = Some (Regular bytes) <-> path <> "" /\ disk p !! path = Some bytes.
Proof.
  unfold stat. destruct (String.eqb path "") eqn:E.
  - apply String.eqb_eq in E. split; [discriminate | intros [H _]; contradiction].
  - apply String.eqb_neq in E. destruct (disk p !! path) as [b|].
    + split; [intros [= ->]; auto | intros [_ [= ->]]; reflexivity].
    + split; [destruct (bool_decide _); discriminate | intros [_ H]; discriminate].
Qed.

Lemma stat_None (p : process C) (path : string) :
  stat p path = None -> path = "" \/ disk p !! path = None.
Proof.
  unfold stat. destruct (String.eqb path "") eqn:E.
  - apply String.eqb_eq in E. auto.
  - destruct (disk p !! path); [discriminate | auto].
Qed.

Lemma open_read_error_None (p : process C) (path : string) :
  open_read_error p path = None <->
  refused p ForReading path = None /\ exists bytes, stat p path = Some (Regular bytes).
Proof.
  unfold open_read_error. split.
  - destruct (String.eqb path "") eqn:E; [discriminate|].
    destruct (refused p ForReading path); [discriminate|].
    destruct (stat p path) as [[bytes|]|]; try discriminate. eauto.
  - intros [Hr [bytes Hs]].
    destruct (String.eqb path "") eqn:E.
    + apply String.eqb_eq in E. apply stat_regular in Hs. destruct Hs. contradiction.
    + now rewrite Hr, Hs.
Qed.

Lemma OSError_of_not_caught (e : errno) : exn_eqb (OSError_of e) JSONDecodeError = false.
Proof. now destruct e. Qed.

Lemma open_read_error_not_caught (p : process C) (path : string) (e : exn) :
  open_read_error p path = Some e -> exn_eqb e JSONDecodeError = false.
Proof.
  unfold open_read_error. destruct (String.eqb path ""); [now intros [= <-]|].
  destruct (refused p ForReading path); [intros [= <-]; apply OSError_of_not_caught|].
  destruct (stat p path) as [[bytes|]|]; intros [= <-]; reflexivity.
Qed.


Lemma exists_present (p : process C) (path : string) (n : node) :
  stat p path = Some n -> os_path_exists p path = true.
Proof. unfold os_path_exists. now intros ->. Qed.

(** [read] when [open] raises: the exception goes through, the handler is
    for another one. *)
Lemma read_not_opened (p : process C) (e : exn) :
  open_read_error p (DB_PATH p) = Some e ->
  read empty_dict json_load p = (Raise e, p).
Proof.
  intros H. unfold read, try_except, bind, gets, open_read. rewrite H.
  now rewrite (open_read_error_not_caught _ _ _ H).
Qed.


(** [read] when the file opens: what becomes of it depends on [json.load]
    alone, and on the size of the file when [json.load] raises
    [JSONDecodeError]. *)
Lemma read_opened (p : process C) (bytes : string) :
  refused p ForReading (DB_PATH p) = None ->
  stat p (DB_PATH p) = Some (Regular bytes) ->
  read empty_dict json_load p =
    match json_load bytes with
    | Ok parsed => (Ok tt, set_CACHE parsed p)
    | Raise e =>
        if exn_eqb e JSONDecodeError
        then if Nat.eqb (String.length bytes) 0
             then (Ok tt, set_CACHE empty_dict p)
             else (Raise JSONDecodeError, p)
        else (Raise e, p)
    end.
Proof.
  intros Hr Hs.
  assert (Hopen : open_read_error p (DB_PATH p) = None)
    by (apply open_read_error_None; eauto).
  pose proof (proj1 (stat_regular _ _ _) Hs) as [_ Hdisk].
  unfold read, try_except, bind, gets, open_read, json_load_text, lift_result, modify.
  rewrite Hopen, Hdisk. cbn [from_option id].
  destruct (json_load bytes) as [parsed|e]; [reflexivity|].
  destruct (exn_eqb e JSONDecodeError); [|reflexivity].
  unfold os_path_getsize, raise. rewrite Hs.
  now destruct (Nat.eqb (String.length bytes) 0).
Qed.

Lemma read_parsed (p : process C) (bytes : string) (parsed : C) :
  refused p ForReading (DB_PATH p) = None ->
  stat p (DB_PATH p) = Some (Regular bytes) -> json_load bytes = Ok parsed ->
  read empty_dict json_load p = (Ok tt, set_CACHE parsed p).
Proof. intros Hr Hs Hl. rewrite (read_opened p bytes Hr Hs). now rewrite Hl. Qed.

Lemma init_run (path : string) (p : process C) :
  WormDB__init__ empty_dict json_load path p =
    if os_path_exists p path
    then read empty_dict json_load (set_DB_PATH path p)
    else (Ok tt, set_DB_PATH path p).
Proof.
  unfold WormDB__init__, bind, modify, gets, ret. cbn [id].
  change (os_path_exists (set_DB_PATH path p) (DB_PATH (set_DB_PATH path p)))
    with (os_path_exists p path).
  now destruct (os_path_exists p path).
Qed.



(** [write] raises what [open] raises and then has done nothing; when the
    file opens, it ends up holding the dump of the cache. *)
Lemma write_run (json_dump : C -> string) (p : process C) :
  write json_dump p =
    match open_write_error p (DB_PATH p) with
    | Some e => (Raise e, p)
    | None => (Ok tt, set_disk (<[DB_PATH p := json_dump (CACHE p)]> (disk p)) p)
    end.
Proof.
  unfold write, bind, gets, open_write, modify.
  destruct (open_write_error p (DB_PATH p)); [reflexivity|].
  unfold set_disk. cbn. now rewrite insert_insert_eq.
Qed.

Lemma open_write_error_os (p : process C) (path : string) (e : exn) :
  open_write_error p path = Some e -> is_OSError e = true.
Proof.
  unfold open_write_error. destruct (String.eqb path ""); [now intros [= <-]|].
  destruct (refused p ForWriting path) as [n|]; [intros [= <-]; now destruct n|].
  destruct (stat p path) as [[bytes|]|]; intros [= <-]; reflexivity.
Qed.
End BackendFacts.

(** ** Write-through *)

Section WriteThrough.
Variable json_dumps : value -> string.

Lemma WormDB_write_run (w : world) :
  WormDB_write json_dumps w =
    match open_write_error (proc w) (DB_PATH (proc w)) with
    | Some e => (Raise e, w)
    | None =>
        (Ok tt,
         set_proc (set_disk (<[DB_PATH (proc w) :=
                                 json_dumps (snapshot (heap w) (CACHE (proc w)))]>
                               (disk (proc w))) (proc w)) w)
    end.
Proof.
  unfold WormDB_write, lift_proc. rewrite write_run.
  destruct (open_write_error (proc w) (DB_PATH (proc w))); [|reflexivity].
  now destruct w.
Qed.

Lemma write_flushes (w w' : world) :
  WormDB_write json_dumps w = (Ok tt, w') -> flushed json_dumps w'.
Proof.
  rewrite WormDB_write_run.
  destruct (open_write_error (proc w) (DB_PATH (proc w))); [discriminate|].
  intros [= <-]. unfold flushed. cbn. apply lookup_insert_eq.
Qed.

Lemma write_raises (w w' : world) (e : exn) :
  WormDB_write json_dumps w = (Raise e, w') ->
  w' = w /\ open_write_error (proc w) (DB_PATH (proc w)) = Some e /\ is_OSError e = true.
Proof.
  rewrite WormDB_write_run.
  destruct (open_write_error (proc w) (DB_PATH (proc w))) as [e'|] eqn:E; [|discriminate].
  intros [= <- <-]. split; [reflexivity|]. split; [reflexivity|].
  exact (open_write_error_os _ _ _ E).
Qed.


Lemma then_write_flushes {A} (m : M world A) (w w' : world) :
  bind m (fun _ => WormDB_write json_dumps) w = (Ok tt, w') -> flushed json_dumps w'.
Proof.
  intros H. bind_inv H. now apply write_flushes in H.
Qed.

Lemma save_flushes (self : Instance) (w w' : world) :
  save json_dumps self w = (Ok tt, w') -> flushed json_dumps w'.
Proof.
  unfold save. intros H.
  do 4 bind_inv H.
  now apply then_write_flushes in H.
Qed.

Lemma update_flushes (self : Instance) (w w' : world) :
  update json_dumps self w = (Ok tt, w') -> flushed json_dumps w'.
Proof.
  unfold update. intros H.
  do 2 bind_inv H.
  destruct a0 as [|first query]; [discriminate|].
  do 3 bind_inv H.
  now apply then_write_flushes in H.
Qed.

Lemma delete_flushes (self : Instance) (w w' : world) :
  delete json_dumps self w = (Ok tt, w') -> flushed json_dumps w'.
Proof.
  unfold delete. intros H.
  do 2 bind_inv H.
  destruct a0 as [|first query]; [discriminate|].
  do 3 bind_inv H.
  now apply then_write_flushes in H.
Qed.

(** C9.  When [save], [update] or [delete] returns, the file at [DB_PATH]
    holds the serialisation of the whole of [CACHE] as it then is. *)
Theorem write_through (self : Instance) (w w' : world) :
  save json_dumps self w = (Ok tt, w') \/
  update json_dumps self w = (Ok tt, w') \/
  delete json_dumps self w = (Ok tt, w') ->
  disk (proc w') !! DB_PATH (proc w') =
    Some (json_dumps (snapshot (heap w') (CACHE (proc w')))).
Proof.
  intros [H | [H | H]].
  - exact (save_flushes _ _ _ H).
  - exact (update_flushes _ _ _ H).
  - exact (delete_flushes _ _ _ H).
Qed.
End WriteThrough.

(** ** Frame properties: what a computation leaves alone *)

Section Frame.
Context {S X : Type}.
Variable f : S -> X.

Lemma preserves_ret {A} (a : A) : preserves f (ret a).
Proof. intros s r s' H. now injection H as _ <-. Qed.

Lemma preserves_raise {A} (e : exn) : preserves f (@raise S A e).
Proof. intros s r s' H. now injection H as _ <-. Qed.

Lemma preserves_gets {A} (g : S -> A) : preserves f (gets g).
Proof. intros s r s' H. now injection H as _ <-. Qed.

Lemma preserves_lift_result {A} (x : result A) : preserves f (@lift_result S A x).
Proof. intros s r s' H. now injection H as _ <-. Qed.

Lemma preserves_modify (g : S -> S) :
  (forall s, f (g s) = f s) -> preserves f (modify g).
Proof. intros Hg s r s' H. injection H as _ <-. apply Hg. Qed.

Lemma preserves_bind {A B} (m : M S A) (k : A -> M S B) :
  preserves f m -> (forall a, preserves f (k a)) -> preserves f (bind m k).
Proof.
  intros Hm Hk s r s'. unfold bind.
  destruct (m s) as [[a|e] s1] eqn:E; intros H.
  - rewrite (Hk a _ _ _ H). eapply Hm; eauto.
  - injection H as _ <-. eapply Hm; eauto.
Qed.

Lemma preserves_try_except {A} (body handler : M S A) (e : exn) :
  preserves f body -> preserves f handler -> preserves f (try_except body e handler).
Proof.
  intros Hb Hh s r s'. unfold try_except.
  destruct (body s) as [[a|e'] s1] eqn:E; intros H.
  - injection H as _ <-. eapply Hb; eauto.
  - destruct (exn_eqb e' e).
    + rewrite (Hh _ _ _ H). eapply Hb; eauto.
    + injection H as _ <-. eapply Hb; eauto.
Qed.

Lemma preserves_mapM {A B} (g : A -> M S B) (l : list A) :
  (forall a, preserves f (g a)) -> preserves f (mapM g l).
Proof.
  intros Hg. induction l as [|a l IH]; simpl.
  - apply preserves_ret.
  - apply preserves_bind; [apply Hg|]. intros b.
    apply preserves_bind; [apply IH|]. intros bs. apply preserves_ret.
Qed.

Lemma preserves_filterM {A} (g : A -> M S bool) (l : list A) :
  (forall a, preserves f (g a)) -> preserves f (filterM g l).
Proof.
  intros Hg. induction l as [|a l IH]; simpl.
  - apply preserves_ret.
  - apply preserves_bind; [apply Hg|]. intros b.
    apply preserves_bind; [apply IH|]. intros bs. apply preserves_ret.
Qed.

Lemma preserves_foldM {A B} (g : B -> A -> M S B) (l : list A) (b : B) :
  (forall b a, preserves f (g b a)) -> preserves f (foldM g l b).
Proof.
  intros Hg. revert b. induction l as [|a l IH]; intros b; simpl.
  - apply preserves_ret.
  - apply preserves_bind; [apply Hg|]. intros b'. apply IH.
Qed.
End Frame.

Create HintDb frame.
#[local] Hint Resolve preserves_ret preserves_raise preserves_gets
  preserves_lift_result preserves_bind preserves_try_except preserves_mapM
  preserves_filterM preserves_foldM : frame.

Section FrameOfDocument.
Context {X : Type}.
Variable f : world -> X.

Lemma preserves_dict_items (l : loc) : preserves f (dict_items l).
Proof. apply preserves_gets. Qed.

Lemma preserves_getitem (l : loc) (key : string) : preserves f (getitem l key).
Proof.
  unfold getitem. apply preserves_bind; [apply preserves_dict_items|].
  intros d. destruct (dict_get d key); auto with frame.
Qed.

Lemma preserves_dict_get_or_None (l : loc) (key : string) :
  preserves f (dict_get_or_None l key).
Proof.
  unfold dict_get_or_None. apply preserves_bind; [apply preserves_dict_items|].
  auto with frame.
Qed.

Lemma preserves_CACHE_getitem (name : string) : preserves f (CACHE_getitem name).
Proof.
  unfold CACHE_getitem. apply preserves_bind; [apply preserves_gets|].
  intros c. destruct (dict_get c name); auto with frame.
Qed.

Lemma preserves_keywords (key : option string) (v : value) :
  preserves f (keywords key v).
Proof.
  destruct key as [k|]; simpl; [destruct (String.eqb k "cls")|]; auto with frame.
Qed.

(** [get_raw] changes nothing at all. *)
Lemma preserves_get_raw (cls : Class) (kwargs : dict value) :
  preserves f (get_raw cls kwargs).
Proof.
  unfold get_raw. apply preserves_try_except; [|apply preserves_ret].
  apply preserves_bind; [apply preserves_CACHE_getitem|]. intros seq.
  apply preserves_foldM. intros seq' kv. apply preserves_filterM. intros l.
  apply preserves_bind; [apply preserves_getitem|]. auto with frame.
Qed.

Lemma preserves_Field__get__ (fd : Field) (self : Instance) :
  preserves f (Field__get__ fd self).
Proof.
  unfold Field__get__. destruct (field_name fd);
    [apply preserves_dict_get_or_None | apply preserves_raise].
Qed.

Lemma preserves_getattr (self : Instance) (name : string) :
  preserves f (getattr self name).
Proof.
  unfold getattr. destruct (dict_get _ name) as [[fd| |]|];
    try apply preserves_raise. apply preserves_Field__get__.
Qed.

Lemma preserves_pk_keywords (self : Instance) : preserves f (pk_keywords self).
Proof.
  unfold pk_keywords. destruct (pk self); [|apply preserves_raise].
  apply preserves_bind; [apply preserves_getattr|]. intros v.
  apply preserves_keywords.
Qed.
End FrameOfDocument.

Lemma get_raw_pure (cls : Class) (kwargs : dict value) (w w' : world)
    (r : result (list loc)) :
  get_raw cls kwargs w = (r, w') -> w' = w.
Proof. apply (preserves_get_raw id). Qed.

(** [get] writes into dictionary objects and makes instances; the globals
    and the file system are as before. *)
Lemma preserves_setitem_proc (l : loc) (key : string) (v : value) :
  preserves proc (setitem l key v).
Proof. apply preserves_modify. reflexivity. Qed.

Lemma get_preserves_proc (cls : Class) (kwargs : dict value) :
  preserves proc (get cls kwargs).
Proof.
  unfold get. apply preserves_bind; [apply preserves_get_raw|]. intros seq.
  apply preserves_foldM. intros query instance.
  apply preserves_bind.
  { intros s r s' H. injection H as _ <-. reflexivity. }
  intros _instance. apply preserves_bind; [apply preserves_dict_items|].
  intros items. apply preserves_bind; [|auto with frame].
  apply preserves_foldM. intros [] kv. apply preserves_setitem_proc.
Qed.

(** ** What [save] stores *)

Section SavedRecord.
Variable json_dumps : value -> string.

Lemma write_keeps_CACHE (w w' : world) (r : result unit) :
  WormDB_write json_dumps w = (r, w') ->
  CACHE (proc w') = CACHE (proc w) /\ heap w' = heap w.
Proof.
  rewrite WormDB_write_run.
  destruct (open_write_error (proc w) (DB_PATH (proc w))); intros [= _ <-]; auto.
Qed.

Lemma CACHE_getitem_run (name : string) (w : world) :
  CACHE_getitem name w =
    match dict_get (CACHE (proc w)) name with
    | Some seq => (Ok seq, w)
    | None => (Raise KeyError, w)
    end.
Proof.
  unfold CACHE_getitem, bind, gets. now destruct (dict_get (CACHE (proc w)) name).
Qed.

Lemma CACHE_append_run (name : string) (x : loc) (w w' : world) :
  CACHE_append name x w = (Ok tt, w') ->
  exists before,
    dict_get (CACHE (proc w)) name = Some before /\
    dict_get (CACHE (proc w')) name = Some (before ++ [x]) /\
    heap w' = heap w.
Proof.
  unfold CACHE_append, CACHE_getitem, CACHE_setitem, bind, gets, modify, ret, raise.
  destruct (dict_get (CACHE (proc w)) name) as [seq|] eqn:E; intros H.
  - injection H as <-. exists seq. simpl. rewrite dict_get_set_eq. auto.
  - discriminate.
Qed.

(** A [save] that returns has put the [_data] object of the instance at
    the end of the collection. *)
Lemma save_appends (self : Instance) (w w1 : world) :
  save json_dumps self w = (Ok tt, w1) ->
  exists before,
    dict_get (CACHE (proc w1)) (get_class_name (inst_class self)) =
      Some (before ++ [to_dict self]).
Proof.
  unfold save. intros H.
  do 5 bind_inv H.
  destruct a2 as [|i found]; [|discriminate]. destruct a3.
  apply CACHE_append_run in Hrun3. destruct Hrun3 as (before & _ & Happ & _).
  apply write_keeps_CACHE in H. destruct H as [-> _].
  eauto.
Qed.

Lemma Field__set__run (fd : Field) (self : Instance) (v : value) (name : string)
    (w : world) :
  field_name fd = Some name ->
  let stored := if is_None v && negb (is_None (field_default fd))
                then field_default fd else v in
  Field__set__ fd self v w =
    (Ok tt,
     set_heap (<[getattr_data self :=
                   dict_set (deref (heap w) (getattr_data self)) name stored]> (heap w)) w).
Proof. intros Hn. unfold Field__set__. now rewrite Hn. Qed.

Lemma get_raw_no_criteria (cls : Class) (seq : list loc) (w : world) :
  dict_get (CACHE (proc w)) (get_class_name cls) = Some seq ->
  get_raw cls [] w = (Ok seq, w).
Proof.
  intros H. unfold get_raw, try_except.
  rewrite (bind_run _ _ w w seq) by (rewrite CACHE_getitem_run; now rewrite H).
  reflexivity.
Qed.

Lemma deref_insert_eq (h : gmap loc record) (l : loc) (r : record) :
  deref (<[l := r]> h) l = r.
Proof. unfold deref. now rewrite lookup_insert_eq. Qed.

Lemma deref_insert_ne (h : gmap loc record) (l l' : loc) (r : record) :
  l <> l' -> deref (<[l := r]> h) l' = deref h l'.
Proof. intros Hne. unfold deref. now rewrite lookup_insert_ne. Qed.

(** C10.  After a [save] that returned, the last record of the collection
    is the [_data] dictionary of the instance itself, the object that
    [to_dict] hands out.  Assigning a field of the instance afterwards
    touches neither [CACHE] nor the file, and yet [get_raw] without
    criteria returns that same object, which now holds the value
    assigned; no [update] took place. *)
Theorem saved_record_is_live (self : Instance) (w w1 : world)
    (attr_name name : string) (fd : Field) (v : value) :
  save json_dumps self w = (Ok tt, w1) ->
  dict_get (cls_attrs (inst_class self)) attr_name = Some (AField fd) ->
  field_name fd = Some name ->
  let stored := if is_None v && negb (is_None (field_default fd))
                then field_default fd else v in
  exists before w2,
    dict_get (CACHE (proc w1)) (get_class_name (inst_class self)) =
      Some (before ++ [to_dict self]) /\
    setattr self attr_name v w1 = (Ok tt, w2) /\
    proc w2 = proc w1 /\
    get_raw (inst_class self) [] w2 = (Ok (before ++ [to_dict self]), w2) /\
    dict_get (deref (heap w2) (to_dict self)) name = Some stored.
Proof.
  intros Hsave Hattr Hname stored.
  destruct (save_appends _ _ _ Hsave) as (before & Hcoll).
  exists before. eexists. split; [exact Hcoll|].
  split.
  { unfold setattr. rewrite Hattr. apply Field__set__run. exact Hname. }
  split; [reflexivity|].
  split.
  - apply get_raw_no_criteria. exact Hcoll.
  - simpl. unfold to_dict. rewrite deref_insert_eq. apply dict_get_set_eq.
Qed.
End SavedRecord.

(** ** The generated [id] field *)

Lemma getitem_run (l : loc) (key : string) (w : world) :
  getitem l key w =
    match dict_get (deref (heap w) l) key with
    | Some v => (Ok v, w)
    | None => (Raise KeyError, w)
    end.
Proof.
  unfold getitem, dict_items, bind, gets.
  now destruct (dict_get (deref (heap w) l) key).
Qed.

Lemma mapM_ids_run (coll : list loc) (w : world) :
  mapM (fun instance => getitem instance "id") coll w =
    match all_ids (heap w) coll with
    | Some ids => (Ok ids, w)
    | None => (Raise KeyError, w)
    end.
Proof.
  induction coll as [|l coll IH]; simpl; [reflexivity|].
  unfold bind at 1. rewrite getitem_run.
  destruct (dict_get (deref (heap w) l) "id") as [v|]; [|reflexivity].
  unfold bind at 1. rewrite IH.
  now destruct (all_ids (heap w) coll).
Qed.

Lemma max_from_ints (rest : list value) (best : value) (zbest : Z) :
  as_int best = Some zbest ->
  Forall (fun v => is_Some (as_int v)) rest ->
  exists top,
    max_from best zbest rest = Ok top /\
    as_int top = Some (fold_left Z.max (map int_of rest) zbest).
Proof.
  revert best zbest. induction rest as [|v rest IH]; intros best zbest Hbest Hall.
  - exists best. auto.
  - inversion Hall as [|? ? [z Hz] Hrest]; subst.
    assert (Hv : int_of v = z) by (unfold int_of; now rewrite Hz).
    destruct (Z.ltb zbest z) eqn:E.
    + destruct (IH v z Hz Hrest) as (top & Hmax & Htop).
      exists top. cbn [max_from map fold_left]. rewrite Hz, E, Hv.
      apply Z.ltb_lt in E. rewrite Z.max_r by lia. auto.
    + destruct (IH best zbest Hbest Hrest) as (top & Hmax & Htop).
      exists top. cbn [max_from map fold_left]. rewrite Hz, E, Hv.
      apply Z.ltb_ge in E. rewrite Z.max_l by lia. auto.
Qed.

Lemma max_plus_one_ints (v : value) (vs : list value) :
  Forall (fun x => is_Some (as_int x)) (v :: vs) ->
  exists top,
    py_max (v :: vs) = Ok top /\
    py_add_1 top = Ok (1 + fold_left Z.max (map int_of vs) (int_of v)).
Proof.
  intros Hall. inversion Hall as [|? ? [z Hz] Hrest]; subst.
  assert (Hv : int_of v = z) by (unfold int_of; now rewrite Hz).
  destruct vs as [|v' vs].
  - exists v. split; [reflexivity|]. unfold py_add_1. rewrite Hz, Hv. simpl.
    f_equal. lia.
  - destruct (max_from_ints (v' :: vs) v z Hz Hrest) as (top & Hmax & Htop).
    exists top. split.
    + unfold py_max. now rewrite Hz.
    + unfold py_add_1. rewrite Htop, Hv. f_equal. lia.
Qed.

Lemma _next_id_run (name : string) (w : world) :
  integer_ids w name -> _next_id name w = (Ok (spec_next_id w name), w).
Proof.
  intros Hint. unfold _next_id, spec_next_id, try_except.
  unfold bind at 1. rewrite CACHE_getitem_run.
  destruct (dict_get (CACHE (proc w)) name) as [coll|] eqn:Ecoll; [|reflexivity].
  unfold bind at 1. rewrite mapM_ids_run.
  destruct (all_ids (heap w) coll) as [ids|] eqn:Eids; [|reflexivity].
  destruct ids as [|v vs]; [reflexivity|].
  destruct (max_plus_one_ints v vs (Hint _ _ Ecoll Eids)) as (top & Hmax & Hadd).
  unfold bind, lift_result. now rewrite Hmax, Hadd.
Qed.

Lemma scan_without_primary_key (items : list (string * attr)) (meta : Meta) :
  (forall k fd, In (k, AField fd) items -> field_primary_key fd = false) ->
  exists declared, scan_attrs items meta = Ok (mkMeta declared (id_field meta)).
Proof.
  revert meta. induction items as [|[k a] items IH]; intros meta Hno.
  - exists (fields meta). now destruct meta.
  - assert (Hrest : forall k' fd, In (k', AField fd) items -> field_primary_key fd = false)
      by (intros k' fd Hin; apply (Hno k' fd); now right).
    destruct a as [fd | |]; simpl.
    + rewrite (Hno k fd) by now left.
      destruct (IH (mkMeta (fields meta ++ [(k, fd)]) (id_field meta)) Hrest)
        as (declared & Hscan).
      eauto.
    + now apply IH.
    + now apply IH.
Qed.

Lemma In_dict_set_other (d : dict attr) (k k' : string) (fd : Field) :
  In (k', AField fd) (dict_set d k AOther) -> In (k', AField fd) d.
Proof.
  induction d as [|[k0 a0] d IH]; simpl.
  - intros [H|[]]. discriminate.
  - destruct (String.eqb k0 k); simpl; intros [H|H]; auto. discriminate.
Qed.

Lemma dict_get_map_set_name (d : dict attr) (k : string) :
  dict_get (map set_name_of d) k =
    match dict_get d k with
    | Some a => Some (snd (set_name_of (k, a)))
    | None => None
    end.
Proof.
  induction d as [|[k0 a0] d IH]; simpl; [reflexivity|].
  replace (fst (set_name_of (k0, a0))) with k0 by now destruct a0.
  destruct (set_name_of (k0, a0)) as [k1 a1] eqn:E.
  assert (k1 = k0) by (destruct a0; now inversion E). subst k1. simpl.
  destruct (String.eqb k0 k) eqn:Ek; [|exact IH].
  apply String.eqb_eq in Ek. subst k0. now rewrite E.
Qed.

Lemma all_ids_alloc (h : gmap loc record) (coll : list loc) (l : loc) (r : record) :
  (forall x, In x coll -> (x < l)%nat) ->
  all_ids (<[l := r]> h) coll = all_ids h coll.
Proof.
  induction coll as [|x coll IH]; intros Hlt; simpl; [reflexivity|].
  rewrite deref_insert_ne by (specialize (Hlt x (or_introl eq_refl)); lia).
  rewrite IH by (intros y Hy; apply Hlt; now right). reflexivity.
Qed.

Lemma max_from_non_integer (rest : list value) (best : value) (zbest : Z) :
  Exists (fun v => as_int v = None) rest ->
  max_from best zbest rest = Raise TypeError.
Proof.
  revert best zbest. induction rest as [|v rest IH]; intros best zbest Hex.
  - inversion Hex.
  - simpl. destruct (as_int v) as [z|] eqn:E; [|reflexivity].
    inversion Hex as [? ? Hv | ? ? Hrest]; subst; [congruence|].
    destruct (Z.ltb zbest z); now apply IH.
Qed.

(** With every record holding an [id] and one of them not an integer,
    [_next_id] ends in [TypeError], at [max] or at [+ 1]. *)
Lemma _next_id_non_integer (name : string) (coll : list loc) (ids : list value)
    (w : world) :
  dict_get (CACHE (proc w)) name = Some coll ->
  all_ids (heap w) coll = Some ids ->
  Exists (fun v => as_int v = None) ids ->
  _next_id name w = (Raise TypeError, w).
Proof.
  intros Hcoll Hids Hex. unfold _next_id, try_except.
  unfold bind at 1. rewrite CACHE_getitem_run, Hcoll.
  unfold bind at 1. rewrite mapM_ids_run, Hids.
  destruct ids as [|v vs]; [inversion Hex|].
  unfold bind, lift_result.
  destruct vs as [|v' vs].
  - simpl. inversion Hex as [? ? Hv | ? ? Hrest]; subst; [|inversion Hrest].
    unfold py_add_1. now rewrite Hv.
  - unfold py_max. destruct (as_int v) as [z|] eqn:E; [|reflexivity].
    inversion Hex as [? ? Hv | ? ? Hrest]; subst; [congruence|].
    now rewrite (max_from_non_integer _ v z Hrest).
Qed.

(** The claim C4 taken for every store fails where an id is a string: the
    class body has no primary key, and declaring the class raises
    [TypeError], so that no [id] field comes to exist. *)
Lemma string_id_stops_class_creation :
  (forall k fd, In (k, AField fd) User_attrs -> field_primary_key fd = false) /\
  fst (DocumentMeta__new__ "User" User_attrs
         (loaded_world "User" [[("id", VStr "x")]])) = Raise TypeError /\
  ~ (exists cls w',
       DocumentMeta__new__ "User" User_attrs
         (loaded_world "User" [[("id", VStr "x")]]) = (Ok cls, w')).
Proof.
  split; [|split].
  - intros k fd [Heq|[]]. injection Heq as _ <-. reflexivity.
  - vm_compute. reflexivity.
  - intros (cls & w' & H).
    assert (Hfst : fst (DocumentMeta__new__ "User" User_attrs
                          (loaded_world "User" [[("id", VStr "x")]])) = Ok cls)
      by now rewrite H.
    vm_compute in Hfst. discriminate.
Qed.

Section GeneratedId.
Variables (name : string) (attrs : dict attr) (w : world).

Hypothesis Halloc : allocated w name.

Lemma all_ids_after_alloc (coll : list loc) :
  dict_get (CACHE (proc w)) name = Some coll ->
  all_ids (heap (after_alloc w)) coll = all_ids (heap w) coll.
Proof.
  intros Hcoll. apply all_ids_alloc. intros x Hx. exact (Halloc coll x Hcoll Hx).
Qed.

Lemma spec_next_id_after_alloc : spec_next_id (after_alloc w) name = spec_next_id w name.
Proof.
  unfold spec_next_id. simpl proc.
  destruct (dict_get (CACHE (proc w)) name) as [coll|] eqn:E; [|reflexivity].
  now rewrite (all_ids_after_alloc coll E).
Qed.

Lemma integer_ids_after_alloc : integer_ids w name -> integer_ids (after_alloc w) name.
Proof.
  intros Hint coll ids Hcoll Hids. simpl in Hcoll.
  rewrite (all_ids_after_alloc coll Hcoll) in Hids. eauto.
Qed.

(** C4, amended.  A schema none of whose fields is a primary key, declared
    while every id in the collection of its name is an integer, gets a field
    named [id], marked primary, at the front of [_meta["fields"]] and bound
    to [id] in the class; [_data], filled when the class is made, holds under
    [id] one more than the greatest id found in that collection in [CACHE]
    as it is when the class is declared, and one when the collection is
    absent or empty or a record has no id. *)
Theorem generated_id :
  (forall k fd, In (k, AField fd) attrs -> field_primary_key fd = false) ->
  dict_get attrs "meta_class" <> Some ADocumentMeta ->
  integer_ids w name ->
  exists cls w' declared,
    DocumentMeta__new__ name attrs w = (Ok cls, w') /\
    id_field (_meta cls) = Some "id" /\
    fields (_meta cls) = ("id", mkField (Some "id") true VNone) :: declared /\
    dict_get (cls_attrs cls) "id" = Some (AField (mkField (Some "id") true VNone)) /\
    deref (heap w') (_data cls) = [("id", VInt (spec_next_id w name))] /\
    proc w' = proc w.
Proof.
  intros Hno Hbase Hint.
  set (attrs2 := dict_set (dict_set attrs "_meta" AOther) "_data" AOther).
  assert (Hmarker : is_DocumentMeta (dict_get attrs2 "meta_class") = false).
  { unfold attrs2. rewrite !dict_get_set_ne by discriminate.
    destruct (dict_get attrs "meta_class") as [[| |]|]; try reflexivity.
    now contradiction Hbase. }
  destruct (scan_without_primary_key attrs2 (mkMeta [] None)) as (declared & Hscan).
  { intros k fd Hin. apply (Hno k fd).
    unfold attrs2 in Hin. now do 2 apply In_dict_set_other in Hin. }
  pose proof (_next_id_run name (after_alloc w) (integer_ids_after_alloc Hint)) as Hnext.
  rewrite spec_next_id_after_alloc in Hnext.
  eexists. eexists. eexists. split.
  { unfold DocumentMeta__new__. fold attrs2.
    rewrite (bind_run _ _ w (after_alloc w) (next_loc w)) by reflexivity.
    rewrite Hmarker.
    rewrite (bind_run _ _ (after_alloc w) (after_alloc w) _)
  by (unfold lift_result; now rewrite Hscan).
    cbn [id_field].
    rewrite (bind_run _ _ (after_alloc w) (after_alloc w) _ Hnext).
    reflexivity. }
  cbn. repeat split.
  - rewrite dict_get_map_set_name, dict_get_set_eq. reflexivity.
  - rewrite deref_insert_eq, deref_insert_eq. reflexivity.
Qed.
End GeneratedId.

(** ** One [_data] dictionary per class *)

(** Any two instances of a class read what either of them was assigned. *)
Lemma assignment_seen_by_every_instance (cls : Class) (a b : nat) (fd : Field)
    (name : string) (v : value) (w : world) :
  field_name fd = Some name ->
  let stored := if is_None v && negb (is_None (field_default fd))
                then field_default fd else v in
  exists w',
    Field__set__ fd (mkInstance a cls) v w = (Ok tt, w') /\
    Field__get__ fd (mkInstance b cls) w' = (Ok stored, w').
Proof.
  intros Hname stored. eexists. split.
  - apply Field__set__run. exact Hname.
  - unfold Field__get__, dict_get_or_None, dict_items, bind, gets, ret.
    rewrite Hname. cbn. rewrite deref_insert_eq, dict_get_set_eq. reflexivity.
Qed.

(** C1.  Two instances [a] and [b] of [User] are made, [b.name] reads
    [None], and after [a.name = "Alice"] it reads ["Alice"]: the instances
    are distinct objects of one class and [_data] belongs to the class. *)
Theorem instances_share_data :
  fst (two_instances empty_world) =
    Ok (mkInstance 0 User, mkInstance 1 User, VNone, VStr "Alice").
Proof. vm_compute. reflexivity. Qed.

(** ** Primary keys at class creation *)

(** Once [id_field] is set, a further primary key stops the scan. *)
Lemma scan_second_primary_key (items : list (string * attr)) (meta : Meta) :
  id_field meta <> None ->
  (exists k fd, In (k, AField fd) items /\ field_primary_key fd = true) ->
  scan_attrs items meta = Raise MultiplePrimaryKey.
Proof.
  revert meta. induction items as [|[k a] items IH]; intros meta Hset (k' & fd & Hin & Hpk).
  - destruct Hin.
  - destruct Hin as [Heq | Hin].
    + injection Heq as -> ->. simpl. rewrite Hpk.
      destruct (id_field meta); [reflexivity | contradiction].
    + assert (Hex : exists k fd, In (k, AField fd) items /\ field_primary_key fd = true)
        by eauto.
      destruct a as [fd0 | |]; simpl; try now apply IH.
      destruct (field_primary_key fd0).
      * destruct (id_field meta); [reflexivity | contradiction].
      * now apply IH.
Qed.

(** C2.  A class body with two primary-key fields, neither given a name, is
    accepted: the scan reads [value.name] before Python has named the
    descriptors, so [id_field] stays [None] and a field [id] is generated
    on top. *)
Theorem unnamed_primary_keys_accepted :
  exists cls w',
    DocumentMeta__new__ "Pair" Pair_attrs empty_world = (Ok cls, w') /\
    id_field (_meta cls) = Some "id" /\
    map fst (fields (_meta cls)) = ["id"; "a"; "b"] /\
    map (fun kv => field_primary_key (snd kv)) (fields (_meta cls)) = [true; true; true].
Proof.
  destruct (DocumentMeta__new__ "Pair" Pair_attrs empty_world) as [r w'] eqn:E.
  vm_compute in E. injection E as <- <-.
  eexists. eexists. split; [reflexivity|]. repeat split.
Qed.

(** ** The scenario of the specification *)

(** C3.  Alice is saved and [User.get(id=1)] returns one instance named
    ["Alice"]; Bob, made from the same class, carries id 1 as well, his
    [save] raises [DocumentAlreadyExists], and [User.get()] returns a single
    document, the one saved for Alice, now named ["Bob"]. *)
Theorem second_user_is_refused (json_dumps : value -> string) :
  fst (alice_then_bob json_dumps empty_world) =
    Ok ([VStr "Alice"], VInt 1, Raise DocumentAlreadyExists, [VStr "Bob"]).
Proof. vm_compute. reflexivity. Qed.

(** ** [get_raw] and [get] on loaded collections *)

(** C6.  The collection holds Alice's record and a record without a name.
    Alice's record meets the criteria [name == "Alice"], and [get_raw]
    returns the empty list: the [KeyError] of the other record is caught by
    the handler meant for a missing collection. *)
Theorem get_raw_drops_a_match (attrs : dict attr) (meta : Meta) (data : loc) :
  let w := loaded_world "User" [alice; [("id", VInt 2)]] in
  let criteria := [("name", VStr "Alice")] in
  matches (heap w) criteria 0%nat = true /\
  get_raw (mkClass "User" attrs meta data) criteria w = (Ok [], w).
Proof. split; vm_compute; reflexivity. Qed.

(** C8.  [User.get()] on a collection holding Alice and Bob returns two
    distinct instances, and both of them show the name ["Bob"] and the id 2:
    every record was copied into the one [_data] dictionary of the class. *)
Theorem get_returns_the_last_record_twice :
  fst (get_everyone (loaded_world "User" [alice; bob])) =
    Ok ([0%nat; 1%nat], [VStr "Bob"; VStr "Bob"], [VInt 2; VInt 2]).
Proof. vm_compute. reflexivity. Qed.

(** C5.  Two runs of [save] on an instance whose primary key is taken.  In
    the first the collection also holds a record without the key: [save]
    returns and the collection then holds uid 7 twice.  In the second [save]
    raises [DocumentAlreadyExists], and the record stored for Bob has been
    overwritten with Alice's by then. *)
Theorem save_on_taken_key (json_dumps : value -> string) :
  fst (save_duplicate_uid json_dumps
         (loaded_world "Account" [[("owner", VStr "x")]; [("uid", VInt 7)]])) =
    Ok (Ok tt,
        VDict [("Account", VList [VDict [("owner", VStr "x")];
                                  VDict [("uid", VInt 7)];
                                  VDict [("uid", VInt 7)]])]) /\
  fst (save_again_with_taken_id json_dumps (loaded_world "User" [alice])) =
    Ok (Raise DocumentAlreadyExists,
        VDict [("User", VList [VDict alice;
                               VDict [("id", VInt 1); ("name", VStr "Bob")]])],
        VDict [("User", VList [VDict alice; VDict alice])]).
Proof. split; vm_compute; reflexivity. Qed.

(** ** What the refusing paths leave alone *)

Section Refusals.
Variable json_dumps : value -> string.

(** [update] and [delete] on a key that matches nothing raise
    [DocumentDoesNotExist] and change nothing. *)
Lemma update_missing (self : Instance) (kwargs : dict value) (w : world) :
  fst (pk_keywords self w) = Ok kwargs ->
  fst (get_raw (inst_class self) kwargs w) = Ok [] ->
  update json_dumps self w = (Raise DocumentDoesNotExist, w).
Proof.
  intros Hk Hq. unfold update.
  destruct (pk_keywords self w) as [r1 w1] eqn:E1. simpl in Hk. subst r1.
  assert (w1 = w) by exact (preserves_pk_keywords id self _ _ _ E1). subst w1.
  rewrite (bind_run _ _ _ _ _ E1).
  destruct (get_raw (inst_class self) kwargs w) as [r2 w2] eqn:E2.
  simpl in Hq. subst r2.
  assert (w2 = w) by exact (get_raw_pure _ _ _ _ _ E2). subst w2.
  now rewrite (bind_run _ _ _ _ _ E2).
Qed.

Lemma delete_missing (self : Instance) (kwargs : dict value) (w : world) :
  fst (pk_keywords self w) = Ok kwargs ->
  fst (get_raw (inst_class self) kwargs w) = Ok [] ->
  delete json_dumps self w = (Raise DocumentDoesNotExist, w).
Proof.
  intros Hk Hq. unfold delete.
  destruct (pk_keywords self w) as [r1 w1] eqn:E1. simpl in Hk. subst r1.
  assert (w1 = w) by exact (preserves_pk_keywords id self _ _ _ E1). subst w1.
  rewrite (bind_run _ _ _ _ _ E1).
  destruct (get_raw (inst_class self) kwargs w) as [r2 w2] eqn:E2.
  simpl in Hq. subst r2.
  assert (w2 = w) by exact (get_raw_pure _ _ _ _ _ E2). subst w2.
  now rewrite (bind_run _ _ _ _ _ E2).
Qed.

(** A [save] that raises [DocumentAlreadyExists] on an existing collection
    leaves [CACHE] bound to the same lists of the same objects, and the
    file system as it was; what the objects hold may have changed. *)
Lemma save_refused_keeps_globals (self : Instance) (seq : list loc) (w w' : world) :
  dict_get (CACHE (proc w)) (get_class_name (inst_class self)) = Some seq ->
  save json_dumps self w = (Raise DocumentAlreadyExists, w') ->
  proc w' = proc w.
Proof.
  intros Hcoll. unfold save.
  rewrite (bind_run _ _ w w tt).
  2:{ unfold try_except. rewrite (bind_run _ _ w w seq); [reflexivity|].
      rewrite CACHE_getitem_run. now rewrite Hcoll. }
  intros H.
  apply bind_Raise_inv in H. destruct H as [H | (key & w1 & Hkey & H)].
  { destruct (pk self);
      [exact (preserves_dict_get_or_None proc _ _ _ _ _ H)
      | exact (preserves_ret proc _ _ _ _ H)]. }
  assert (Hw1 : proc w1 = proc w).
  { destruct (pk self);
      [exact (preserves_dict_get_or_None proc _ _ _ _ _ Hkey)
      | exact (preserves_ret proc _ _ _ _ Hkey)]. }
  apply bind_Raise_inv in H. destruct H as [H | (kwargs & w2 & Hkw & H)].
  { rewrite <- Hw1. exact (preserves_keywords proc _ _ _ _ _ H). }
  assert (Hw2 : proc w2 = proc w)
    by (rewrite <- Hw1; exact (preserves_keywords proc _ _ _ _ _ Hkw)).
  apply bind_Raise_inv in H. destruct H as [H | (found & w3 & Hget & H)].
  { rewrite <- Hw2. exact (get_preserves_proc _ _ _ _ _ H). }
  assert (Hw3 : proc w3 = proc w)
    by (rewrite <- Hw2; exact (get_preserves_proc _ _ _ _ _ Hget)).
  apply bind_Raise_inv in H. destruct H as [H | (u & w4 & Happ & H)].
  - destruct found as [|i found].
    + unfold CACHE_append, bind in H. rewrite CACHE_getitem_run in H.
      destruct (dict_get (CACHE (proc w3)) (get_class_name (inst_class self)));
        discriminate.
    + injection H as <-. exact Hw3.
  - apply write_raises in H. destruct H as (_ & _ & H). discriminate.
Qed.
End Refusals.

(** ** Where [get_raw] does select by the criteria *)

Lemma filter_filter {A} (p q : A -> bool) (l : list A) :
  List.filter q (List.filter p l) = List.filter (fun x => p x && q x) l.
Proof.
  induction l as [|x l IH]; simpl; [reflexivity|].
  destruct (p x); simpl; [destruct (q x)|]; now rewrite IH.
Qed.

Lemma filter_all {A} (l : list A) : List.filter (fun _ => true) l = l.
Proof. induction l as [|x l IH]; simpl; now rewrite ?IH. Qed.

Lemma filterM_with_key (seq : list loc) (kv : string * value) (w : world) :
  (forall l, In l seq -> dict_get (deref (heap w) l) (fst kv) <> None) ->
  filterM (fun _instance =>
             let* x := getitem _instance (fst kv) in ret (py_eq (snd kv) x)) seq w =
    (Ok (List.filter (holds_key (heap w) kv) seq), w).
Proof.
  induction seq as [|l seq IH]; intros Hkeys; [reflexivity|].
  cbn [filterM List.filter]. unfold holds_key at 1.
  pose proof (Hkeys l (or_introl eq_refl)) as Hl.
  destruct (dict_get (deref (heap w) l) (fst kv)) as [x|] eqn:E; [|contradiction].
  rewrite (bind_run _ _ w w (py_eq (snd kv) x)).
  2:{ rewrite (bind_run _ _ w w x); [reflexivity|]. rewrite getitem_run. now rewrite E. }
  rewrite (bind_run _ _ w w _ (IH (fun l' H => Hkeys l' (or_intror H)))).
  reflexivity.
Qed.

Lemma select_with_keys (kwargs : dict value) (seq : list loc) (w : world) :
  (forall l kv, In l seq -> In kv kwargs -> dict_get (deref (heap w) l) (fst kv) <> None) ->
  foldM (fun seq kv =>
           filterM (fun _instance =>
                      let* x := getitem _instance (fst kv) in ret (py_eq (snd kv) x)) seq)
        kwargs seq w =
    (Ok (List.filter (matches (heap w) kwargs) seq), w).
Proof.
  revert seq. induction kwargs as [|kv kwargs IH]; intros seq Hkeys.
  - cbn. unfold ret. now rewrite filter_all.
  - cbn [foldM].
    rewrite (bind_run _ _ w w _
               (filterM_with_key seq kv w (fun l H => Hkeys l kv H (or_introl eq_refl)))).
    rewrite IH.
    + now rewrite filter_filter.
    + intros l kv' Hl Hkv. apply Hkeys; [|now right].
      apply List.filter_In in Hl. tauto.
Qed.

(** [get_raw] returns the records that meet every criterion, in the order
    of the collection, provided no record of the collection lacks a key of
    the criteria. *)
Lemma get_raw_with_keys (cls : Class) (kwargs : dict value) (seq : list loc) (w : world) :
  dict_get (CACHE (proc w)) (get_class_name cls) = Some seq ->
  (forall l kv, In l seq -> In kv kwargs -> dict_get (deref (heap w) l) (fst kv) <> None) ->
  get_raw cls kwargs w = (Ok (List.filter (matches (heap w) kwargs) seq), w).
Proof.
  intros Hcoll Hkeys. unfold get_raw, try_except.
  rewrite (bind_run _ _ w w seq) by (rewrite CACHE_getitem_run; now rewrite Hcoll).
  now rewrite select_with_keys.
Qed.

(** Without the collection, [get_raw] returns the empty list. *)
Lemma get_raw_absent (cls : Class) (kwargs : dict value) (w : world) :
  dict_get (CACHE (proc w)) (get_class_name cls) = None ->
  get_raw cls kwargs w = (Ok [], w).
Proof.
  intros Hcoll. unfold get_raw, try_except.
  rewrite (bind_raise _ _ w w KeyError) by (rewrite CACHE_getitem_run; now rewrite Hcoll).
  reflexivity.
Qed.

(** ** Where [save] does refuse a taken key *)

Lemma copy_items_total (target : loc) (items : record) (u : unit) (w : world) :
  exists w', foldM (fun _ kv => setitem target (fst kv) (snd kv)) items u w = (Ok tt, w').
Proof.
  revert u w. induction items as [|kv items IH]; intros u w.
  - destruct u. exists w. reflexivity.
  - cbn [foldM]. unfold bind at 1. cbn [setitem modify]. apply IH.
Qed.

(** One turn of the loop of [get] returns, with one more instance. *)
Lemma get_step_total (cls : Class) (query : list Instance) (instance : loc) (w : world) :
  exists w',
    (let* _instance := DocumentMeta__call__ cls in
     let* items := dict_items instance in
     foldM (fun _ kv => setitem (getattr_data _instance) (fst kv) (snd kv)) items tt ;;;
     ret (query ++ [_instance])) w =
      (Ok (query ++ [mkInstance (next_oid w) cls]), w').
Proof.
  set (w0 := World (proc w) (heap w) (next_loc w) (S (next_oid w))).
  rewrite (bind_run _ _ w w0 (mkInstance (next_oid w) cls)) by reflexivity.
  rewrite (bind_run _ _ w0 w0 (deref (heap w0) instance)) by reflexivity.
  destruct (copy_items_total (getattr_data (mkInstance (next_oid w) cls))
              (deref (heap w0) instance) tt w0) as (w' & Hcopy).
  exists w'. now rewrite (bind_run _ _ w0 w' tt Hcopy).
Qed.

(** The loop of [get] returns one instance for every record it is given. *)
Lemma get_loop_total (cls : Class) (seq : list loc) (query : list Instance) (w : world) :
  exists query' w',
    foldM (fun query instance =>
             let* _instance := DocumentMeta__call__ cls in
             let* items := dict_items instance in
             foldM (fun _ kv => setitem (getattr_data _instance) (fst kv) (snd kv))
                   items tt ;;;
             ret (query ++ [_instance]))
          seq query w = (Ok query', w') /\
    length query' = (length query + length seq)%nat.
Proof.
  revert query w. induction seq as [|l seq IH]; intros query w.
  - exists query, w. split; [reflexivity|]. simpl. lia.
  - cbn [foldM].
    destruct (get_step_total cls query l w) as (w1 & Hstep).
    rewrite (bind_run _ _ w w1 _ Hstep).
    destruct (IH (query ++ [mkInstance (next_oid w) cls]) w1) as (q' & w' & Hrun & Hlen).
    exists q', w'. split; [exact Hrun|].
    rewrite Hlen, length_app. simpl. lia.
Qed.

Lemma keywords_run (k : string) (v : value) (w : world) :
  k <> "cls" -> keywords (Some k) v w = (Ok [(k, v)], w).
Proof.
  intros Hk. unfold keywords. apply String.eqb_neq in Hk. now rewrite Hk.
Qed.

Lemma keywords_Ok_inv (key : option string) (v : value) (kwargs : dict value)
    (w w' : world) :
  keywords key v w = (Ok kwargs, w') ->
  exists k, key = Some k /\ k <> "cls" /\ kwargs = [(k, v)] /\ w' = w.
Proof.
  unfold keywords. destruct key as [k|]; [|discriminate].
  destruct (String.eqb k "cls") eqn:E; [discriminate|].
  intros [= <- <-]. exists k. apply String.eqb_neq in E. auto.
Qed.

Section RefusedDuplicate.
Variable json_dumps : value -> string.

(** With no record of the collection lacking the primary key, [save] on an
    instance whose key is held by a record raises [DocumentAlreadyExists]. *)
Lemma save_refuses_duplicate (self : Instance) (k : string) (seq : list loc)
    (taken : loc) (w : world) :
  pk self = Some k -> k <> "cls" ->
  dict_get (CACHE (proc w)) (get_class_name (inst_class self)) = Some seq ->
  (forall l, In l seq -> dict_get (deref (heap w) l) k <> None) ->
  In taken seq ->
  holds_key (heap w)
    (k, from_option id VNone (dict_get (deref (heap w) (getattr_data self)) k)) taken = true ->
  exists w', save json_dumps self w = (Raise DocumentAlreadyExists, w').
Proof.
  intros Hpk Hcls Hcoll Hkeys Hin Hheld. unfold save.
  rewrite (bind_run _ _ w w tt).
  2:{ unfold try_except. rewrite (bind_run _ _ w w seq); [reflexivity|].
      rewrite CACHE_getitem_run. now rewrite Hcoll. }
  rewrite Hpk.
  set (key := from_option id VNone (dict_get (deref (heap w) (getattr_data self)) k)) in *.
  rewrite (bind_run _ _ w w key) by reflexivity.
  rewrite (bind_run _ _ w w [(k, key)]) by now apply keywords_run.
  destruct (get_loop_total (inst_class self)
              (List.filter (matches (heap w) [(k, key)]) seq) [] w)
    as (found & w' & Hrun & Hlen).
  assert (Hget : get (inst_class self) [(k, key)] w = (Ok found, w')).
  { unfold get.
    rewrite (bind_run _ _ w w (List.filter (matches (heap w) [(k, key)]) seq));
      [exact Hrun|].
    apply get_raw_with_keys; [exact Hcoll|].
    intros l kv Hl [<-|[]]. simpl. now apply Hkeys. }
  assert (Hne : List.filter (matches (heap w) [(k, key)]) seq <> []).
  { intros Hnil.
    assert (Hf : In taken (List.filter (matches (heap w) [(k, key)]) seq)).
    { apply List.filter_In. split; [exact Hin|]. simpl. now rewrite Hheld. }
    rewrite Hnil in Hf. destruct Hf. }
  exists w'. rewrite (bind_run _ _ w w' found Hget).
  destruct found as [|i found].
  - simpl in Hlen. destruct (List.filter (matches (heap w) [(k, key)]) seq);
      [contradiction | discriminate].
  - reflexivity.
Qed.
End RefusedDuplicate.

(** ** The theorems at concrete inputs *)

Lemma alice_unsaved_reached :
  (let* User := DocumentMeta__new__ "User" User_attrs in
   let* a := DocumentMeta__call__ User in
   setattr a "name" (VStr "Alice") ;;;
   ret a) empty_world = (Ok (mkInstance 0 User), alice_unsaved).
Proof. vm_compute. reflexivity. Qed.

Lemma User_declared :
  fst (DocumentMeta__new__ "User" User_attrs empty_world) = Ok User.
Proof. vm_compute. reflexivity. Qed.



Lemma write_through_witness :
  let self := mkInstance 0 User in
  save toy_dumps self alice_unsaved = (Ok tt, snd (save toy_dumps self alice_unsaved)) /\
  disk (proc (snd (save toy_dumps self alice_unsaved))) !! "db.json" = Some "{...}".
Proof.
  intros self.
  assert (Hsave : save toy_dumps self alice_unsaved =
                    (Ok tt, snd (save toy_dumps self alice_unsaved)))
    by (vm_compute; reflexivity).
  split; [exact Hsave|].
  exact (write_through toy_dumps self alice_unsaved _ (or_introl Hsave)).
Defined.

Lemma saved_record_is_live_witness :
  let self := mkInstance 0 User in
  let w1 := snd (save toy_dumps self alice_unsaved) in
  save toy_dumps self alice_unsaved = (Ok tt, w1) /\
  dict_get (cls_attrs User) "name" = Some (AField (mkField (Some "name") false VNone)) /\
  exists before w2,
    dict_get (CACHE (proc w1)) "User" = Some (before ++ [0%nat]) /\
    setattr self "name" (VStr "Alicia") w1 = (Ok tt, w2) /\
    proc w2 = proc w1 /\
    get_raw User [] w2 = (Ok (before ++ [0%nat]), w2) /\
    dict_get (deref (heap w2) 0%nat) "name" = Some (VStr "Alicia").
Proof.
  intros self w1.
  assert (Hsave : save toy_dumps self alice_unsaved = (Ok tt, w1))
    by (vm_compute; reflexivity).
  split; [exact Hsave|]. split; [reflexivity|].
  exact (saved_record_is_live toy_dumps self alice_unsaved w1 "name" "name"
           (mkField (Some "name") false VNone) (VStr "Alicia")
           Hsave eq_refl eq_refl).
Defined.

Lemma generated_id_witness :
  let w := loaded_world "User" [alice; [("id", VInt 5); ("name", VStr "Eve")]] in
  allocated w "User" /\
  integer_ids w "User" /\
  exists cls w',
    DocumentMeta__new__ "User" User_attrs w = (Ok cls, w') /\
    id_field (_meta cls) = Some "id" /\
    deref (heap w') (_data cls) = [("id", VInt 6)].
Proof.
  intros w.
  assert (Halloc : allocated w "User").
  { intros coll l Hcoll Hin. vm_compute in Hcoll. injection Hcoll as <-.
    simpl in *. lia. }
  assert (Hint : integer_ids w "User").
  { intros coll ids Hcoll Hids. vm_compute in Hcoll. injection Hcoll as <-.
    vm_compute in Hids. injection Hids as <-.
    repeat constructor; eexists; reflexivity. }
  split; [exact Halloc|]. split; [exact Hint|].
  destruct (generated_id "User" User_attrs w Halloc) as (cls & w' & declared & H).
  - intros k fd [Heq|[]]. injection Heq as _ <-. reflexivity.
  - discriminate.
  - exact Hint.
  - exists cls, w'. destruct H as (Hrun & Hid & _ & _ & Hdata & _). auto.
Defined.

(** ** [get_raw] in full *)

Lemma filterM_key_run (seq : list loc) (kv : string * value) (w : world) :
  filterM (fun _instance =>
             let* x := getitem _instance (fst kv) in ret (py_eq (snd kv) x)) seq w =
    if forallb (has_key (heap w) (fst kv)) seq
    then (Ok (List.filter (holds_key (heap w) kv) seq), w)
    else (Raise KeyError, w).
Proof.
  induction seq as [|l seq IH]; [reflexivity|].
  cbn [filterM forallb List.filter]. unfold has_key at 1, holds_key at 1.
  destruct (dict_get (deref (heap w) l) (fst kv)) as [x|] eqn:E.
  - rewrite (bind_run _ _ w w (py_eq (snd kv) x)).
    2:{ rewrite (bind_run _ _ w w x); [reflexivity|]. rewrite getitem_run. now rewrite E. }
    cbn [andb]. destruct (forallb (has_key (heap w) (fst kv)) seq).
    + now rewrite (bind_run _ _ w w _ IH).
    + now rewrite (bind_raise _ _ w w _ IH).
  - rewrite (bind_raise _ _ w w KeyError); [reflexivity|].
    rewrite (bind_raise _ _ w w KeyError); [reflexivity|].
    rewrite getitem_run. now rewrite E.
Qed.

Lemma select_cases (kwargs : dict value) (seq : list loc) (w : world) :
  foldM (fun seq kv =>
           filterM (fun _instance =>
                      let* x := getitem _instance (fst kv) in ret (py_eq (snd kv) x)) seq)
        kwargs seq w = (Ok (List.filter (matches (heap w) kwargs) seq), w) \/
  foldM (fun seq kv =>
           filterM (fun _instance =>
                      let* x := getitem _instance (fst kv) in ret (py_eq (snd kv) x)) seq)
        kwargs seq w = (Raise KeyError, w).
Proof.
  revert seq. induction kwargs as [|kv kwargs IH]; intros seq.
  - left. cbn. unfold ret. now rewrite filter_all.
  - cbn [foldM].
    pose proof (filterM_key_run seq kv w) as Hstep.
    destruct (forallb (has_key (heap w) (fst kv)) seq).
    + rewrite (bind_run _ _ w w _ Hstep).
      destruct (IH (List.filter (holds_key (heap w) kv) seq)) as [H|H]; rewrite H.
      * left. now rewrite filter_filter.
      * now right.
    + right. now rewrite (bind_raise _ _ w w _ Hstep).
Qed.

Lemma get_raw_cases (cls : Class) (kwargs : dict value) (w : world) :
  get_raw cls kwargs w = (Ok [], w) \/
  exists coll,
    dict_get (CACHE (proc w)) (get_class_name cls) = Some coll /\
    get_raw cls kwargs w = (Ok (List.filter (matches (heap w) kwargs) coll), w).
Proof.
  unfold get_raw, try_except.
  destruct (dict_get (CACHE (proc w)) (get_class_name cls)) as [coll|] eqn:E.
  - rewrite (bind_run _ _ w w coll) by (rewrite CACHE_getitem_run; now rewrite E).
    destruct (select_cases kwargs coll w) as [H|H]; rewrite H.
    + right. eauto.
    + now left.
  - left. rewrite (bind_raise _ _ w w KeyError); [reflexivity|].
    rewrite CACHE_getitem_run. now rewrite E.
Qed.

(** X1.  [get_raw] never raises and never changes the state.  What it
    returns is either the empty list or the records of the collection that
    meet every criterion, in the order of the collection; so every record
    it returns belongs to the collection and meets the criteria. *)
Theorem get_raw_sound (cls : Class) (kwargs : dict value) (w : world) :
  exists found,
    get_raw cls kwargs w = (Ok found, w) /\
    (found = [] \/
     exists coll,
       dict_get (CACHE (proc w)) (get_class_name cls) = Some coll /\
       found = List.filter (matches (heap w) kwargs) coll) /\
    (forall l, In l found ->
       matches (heap w) kwargs l = true /\
       exists coll,
         dict_get (CACHE (proc w)) (get_class_name cls) = Some coll /\ In l coll).
Proof.
  destruct (get_raw_cases cls kwargs w) as [H | (coll & Hcoll & H)].
  - exists []. split; [exact H|]. split; [now left|]. intros l [].
  - exists (List.filter (matches (heap w) kwargs) coll).
    split; [exact H|]. split; [right; eauto|].
    intros l Hl. apply List.filter_In in Hl. destruct Hl as [Hin Hm].
    split; [exact Hm|]. eauto.
Qed.

(** ** [get] in full *)

Lemma copy_items_frame (target : loc) (items : record) (u : unit) (w : world) :
  exists w',
    foldM (fun _ kv => setitem target (fst kv) (snd kv)) items u w = (Ok tt, w') /\
    proc w' = proc w /\ next_oid w' = next_oid w /\ next_loc w' = next_loc w /\
    forall l, l <> target -> heap w' !! l = heap w !! l.
Proof.
  revert u w. induction items as [|kv items IH]; intros u w.
  - destruct u. exists w. auto.
  - cbn [foldM]. unfold bind at 1. cbn [setitem modify].
    destruct (IH tt (set_heap (<[target := dict_set (deref (heap w) target) (fst kv) (snd kv)]>
                                 (heap w)) w))
      as (w' & Hrun & Hproc & Hoid & Hloc & Hheap).
    exists w'. split; [exact Hrun|]. repeat split; auto.
    intros l Hl. rewrite (Hheap l Hl). cbn. now rewrite lookup_insert_ne.
Qed.

Lemma get_loop_frame (cls : Class) (seq : list loc) (query : list Instance) (w : world) :
  exists w',
    foldM (fun query instance =>
             let* _instance := DocumentMeta__call__ cls in
             let* items := dict_items instance in
             foldM (fun _ kv => setitem (getattr_data _instance) (fst kv) (snd kv))
                   items tt ;;;
             ret (query ++ [_instance]))
          seq query w =
      (Ok (query ++ map (fun i => mkInstance i cls) (List.seq (next_oid w) (length seq))), w') /\
    proc w' = proc w /\ next_loc w' = next_loc w /\
    forall l, l <> _data cls -> heap w' !! l = heap w !! l.
Proof.
  revert query w. induction seq as [|r seq IH]; intros query w.
  - exists w. cbn. unfold ret. rewrite app_nil_r. auto.
  - cbn [foldM].
    set (w0 := World (proc w) (heap w) (next_loc w) (S (next_oid w))).
    destruct (copy_items_frame (_data cls) (deref (heap w0) r) tt w0)
      as (w1 & Hcopy & Hproc1 & Hoid1 & Hloc1 & Hheap1).
    assert (Hstep :
      (let* _instance := DocumentMeta__call__ cls in
       let* items := dict_items r in
       foldM (fun _ kv => setitem (getattr_data _instance) (fst kv) (snd kv)) items tt ;;;
       ret (query ++ [_instance])) w = (Ok (query ++ [mkInstance (next_oid w) cls]), w1)).
    { rewrite (bind_run _ _ w w0 (mkInstance (next_oid w) cls)) by reflexivity.
      rewrite (bind_run _ _ w0 w0 (deref (heap w0) r)) by reflexivity.
      now rewrite (bind_run _ _ w0 w1 tt Hcopy). }
    rewrite (bind_run _ _ w w1 _ Hstep).
    destruct (IH (query ++ [mkInstance (next_oid w) cls]) w1)
      as (w' & Hrun & Hproc & Hloc & Hheap).
    exists w'. rewrite Hrun, Hoid1. cbn [length List.seq map].
    rewrite <- app_assoc. cbn [app].
    split; [reflexivity|]. split; [now rewrite Hproc, Hproc1|].
    split; [now rewrite Hloc, Hloc1|].
    intros l Hl. now rewrite (Hheap l Hl), (Hheap1 l Hl).
Qed.

(** X2.  [get] never raises.  It returns one new instance of the class for
    every record [get_raw] selects, with identities that follow one another;
    it leaves [CACHE] and the files alone, and the only dictionary object it
    writes to is the [_data] of the class. *)
Theorem get_one_instance_per_record (cls : Class) (kwargs : dict value) (w : world) :
  exists found w',
    get_raw cls kwargs w = (Ok found, w) /\
    get cls kwargs w =
      (Ok (map (fun i => mkInstance i cls) (List.seq (next_oid w) (length found))), w') /\
    proc w' = proc w /\
    forall l, l <> _data cls -> heap w' !! l = heap w !! l.
Proof.
  assert (Hraw : exists found, get_raw cls kwargs w = (Ok found, w))
    by (destruct (get_raw_cases cls kwargs w) as [H | (coll & _ & H)]; eauto).
  destruct Hraw as (found & Hraw).
  destruct (get_loop_frame cls found [] w) as (w' & Hloop & Hproc & _ & Hheap).
  exists found, w'. split; [exact Hraw|]. split; [|auto].
  unfold get. now rewrite (bind_run _ _ w w found Hraw).
Qed.

(** ** When a class body is refused *)

Lemma dict_set_absent {A} (d : dict A) (k : string) (v : A) :
  dict_get d k = None -> dict_set d k v = d ++ [(k, v)].
Proof.
  induction d as [|[k0 v0] d IH]; simpl; [reflexivity|].
  destruct (String.eqb k0 k); [discriminate|]. intros H. now rewrite IH.
Qed.

Lemma scan_past_other (items : list (string * attr)) (k : string) (meta : Meta) :
  scan_attrs (items ++ [(k, AOther)]) meta = scan_attrs items meta.
Proof.
  revert meta. induction items as [|[k0 a0] items IH]; intros meta; [reflexivity|].
  destruct a0 as [fd| |]; simpl; rewrite ?IH; reflexivity.
Qed.

(** The scan ends in a [Meta] or in [MultiplePrimaryKey], nothing else. *)
Lemma scan_outcomes (items : list (string * attr)) (meta : Meta) :
  (exists meta', scan_attrs items meta = Ok meta') \/
  scan_attrs items meta = Raise MultiplePrimaryKey.
Proof.
  revert meta. induction items as [|[k a] items IH]; intros meta; [left; eauto|].
  destruct a as [fd| |]; simpl; try apply IH.
  destruct (field_primary_key fd); [|apply IH].
  destruct (id_field meta); [now right | apply IH].
Qed.

Lemma scan_raises_iff (items : list (string * attr)) (meta : Meta) :
  scan_attrs items meta = Raise MultiplePrimaryKey <->
  (id_field meta <> None /\
   exists k fd, In (k, AField fd) items /\ field_primary_key fd = true) \/
  named_key_then_key items.
Proof.
  revert meta. induction items as [|[k a] items IH]; intros meta.
  - simpl. split; [discriminate|].
    intros [(_ & k & fd & [] & _) | (l1 & k1 & f1 & l2 & k2 & f2 & l3 & Heq & _)].
    now destruct l1.
  - assert (Hskip : forall meta0,
              id_field meta0 = id_field meta ->
              (forall fd, a = AField fd -> field_primary_key fd = false) ->
              (scan_attrs items meta0 = Raise MultiplePrimaryKey <->
               (id_field meta <> None /\
                exists k' fd, In (k', AField fd) ((k, a) :: items) /\
                              field_primary_key fd = true) \/
               named_key_then_key ((k, a) :: items))).
    { intros meta0 Hid Ha. rewrite IH, Hid. split.
      - intros [(Hset & k' & fd & Hin & Hpk) | (l1 & k1 & f1 & l2 & k2 & f2 & l3 & Heq & Hrest)].
        + left. split; [exact Hset|]. exists k', fd. split; [now right | exact Hpk].
        + right. exists ((k, a) :: l1), k1, f1, l2, k2, f2, l3. now rewrite Heq.
      - intros [(Hset & k' & fd & Hin & Hpk) | (l1 & k1 & f1 & l2 & k2 & f2 & l3 & Heq & Hp1 & Hn1 & Hp2)].
        + left. split; [exact Hset|]. destruct Hin as [Hhead | Hin]; [|eauto].
          inversion Hhead; subst. rewrite (Ha fd eq_refl) in Hpk. discriminate.
        + destruct l1 as [|x l1]; inversion Heq; subst.
          * rewrite (Ha f1 eq_refl) in Hp1. discriminate.
          * right. exists l1, k1, f1, l2, k2, f2, l3. auto. }
    destruct a as [fd| |].
    + simpl. destruct (field_primary_key fd) eqn:Hpk.
      * destruct (id_field meta) as [n|] eqn:Hid.
        -- split; [|reflexivity]. intros _. left. split; [discriminate|].
           exists k, fd. split; [now left | exact Hpk].
        -- rewrite IH. cbn [id_field]. split.
           ++ intros [(Hset & k' & fd' & Hin & Hpk') | (l1 & k1 & f1 & l2 & k2 & f2 & l3 & Heq & Hrest)].
              ** right. apply in_split in Hin. destruct Hin as (l2 & l3 & ->).
                 exists [], k, fd, l2, k', fd', l3. auto.
              ** right. exists ((k, AField fd) :: l1), k1, f1, l2, k2, f2, l3.
                 now rewrite Heq.
           ++ intros [(Hset & _) | (l1 & k1 & f1 & l2 & k2 & f2 & l3 & Heq & Hp1 & Hn1 & Hp2)];
                [contradiction|].
              destruct l1 as [|x l1]; inversion Heq; subst.
              ** left. split; [exact Hn1|].
                 exists k2, f2. split; [|exact Hp2]. apply in_or_app. right. now left.
              ** right. exists l1, k1, f1, l2, k2, f2, l3. auto.
      * apply Hskip; [reflexivity|]. intros fd0 Heq. inversion Heq; subst. exact Hpk.
    + simpl. apply Hskip; [reflexivity | discriminate].
    + simpl. apply Hskip; [reflexivity | discriminate].
Qed.

(** [_next_id] returns a number or raises [TypeError]; it changes nothing. *)
Lemma _next_id_outcomes (name : string) (w : world) :
  exists r, _next_id name w = (r, w) /\ ((exists n, r = Ok n) \/ r = Raise TypeError).
Proof.
  unfold _next_id, try_except.
  unfold bind at 1. rewrite CACHE_getitem_run.
  destruct (dict_get (CACHE (proc w)) name) as [coll|]; [|eexists; split; eauto].
  unfold bind at 1. rewrite mapM_ids_run.
  destruct (all_ids (heap w) coll) as [ids|]; [|eexists; split; eauto].
  destruct ids as [|v vs]; [eexists; split; [reflexivity | eauto]|].
  unfold bind, lift_result.
  assert (Hmax : (exists top, py_max (v :: vs) = Ok top) \/
                 py_max (v :: vs) = Raise TypeError).
  { unfold py_max. destruct vs as [|v' vs]; [left; eauto|].
    destruct (as_int v) as [z|]; [|now right].
    generalize (v' :: vs) as rest. intros rest. revert v z.
    induction rest as [|x rest IHr]; intros best z; [left; simpl; eauto|].
    simpl. destruct (as_int x) as [zx|]; [|now right].
    destruct (Z.ltb z zx); apply IHr. }
  destruct Hmax as [(top & ->) | ->]; [|eexists; split; [reflexivity | now right]].
  unfold py_add_1.
  destruct (as_int top); eexists; (split; [reflexivity|]); eauto.
Qed.

Lemma marker_absent (attrs : dict attr) :
  dict_get attrs "meta_class" <> Some ADocumentMeta ->
  is_DocumentMeta
    (dict_get (dict_set (dict_set attrs "_meta" AOther) "_data" AOther) "meta_class") = false.
Proof.
  intros Hbase. rewrite !dict_get_set_ne by discriminate.
  destruct (dict_get attrs "meta_class") as [[| |]|]; try reflexivity.
  now contradiction Hbase.
Qed.

Lemma namespace_of_plain_body (attrs : dict attr) :
  dict_get attrs "_meta" = None -> dict_get attrs "_data" = None ->
  dict_set (dict_set attrs "_meta" AOther) "_data" AOther =
    (attrs ++ [("_meta", AOther)]) ++ [("_data", AOther)].
Proof.
  intros Hm Hd. rewrite (dict_set_absent attrs "_meta" AOther Hm).
  apply dict_set_absent. rewrite <- (dict_set_absent attrs "_meta" AOther Hm).
  now rewrite dict_get_set_ne by discriminate.
Qed.

(** X3.  For a class body that binds neither [_meta] nor [_data] and is not
    the base class, [DocumentMeta.__new__] raises [MultiplePrimaryKey]
    exactly when a primary-key field that was given a name is followed, in
    the body, by another primary-key field. *)
Theorem multiple_primary_key_iff (name : string) (attrs : dict attr) (w : world) :
  dict_get attrs "_meta" = None ->
  dict_get attrs "_data" = None ->
  dict_get attrs "meta_class" <> Some ADocumentMeta ->
  fst (DocumentMeta__new__ name attrs w) = Raise MultiplePrimaryKey <->
  named_key_then_key attrs.
Proof.
  intros Hm Hd Hbase.
  pose proof (scan_raises_iff attrs (mkMeta [] None)) as Hiff.
  assert (Hscan : scan_attrs (dict_set (dict_set attrs "_meta" AOther) "_data" AOther)
                    (mkMeta [] None) = scan_attrs attrs (mkMeta [] None))
    by (rewrite (namespace_of_plain_body attrs Hm Hd); now rewrite !scan_past_other).
  unfold DocumentMeta__new__.
  rewrite (bind_run _ _ w (after_alloc w) (next_loc w)) by reflexivity.
  rewrite (marker_absent attrs Hbase), Hscan.
  destruct (scan_outcomes attrs (mkMeta [] None)) as [(meta & Hok) | Hraise].
  - rewrite (bind_run _ _ (after_alloc w) (after_alloc w) meta)
      by (unfold lift_result; now rewrite Hok).
    assert (Hnot : ~ named_key_then_key attrs).
    { intros Hnamed. rewrite Hok in Hiff.
      assert (Hbad : @Ok Meta meta = Raise MultiplePrimaryKey) by (apply Hiff; now right).
      discriminate. }
    split; [|contradiction]. intros Hfst. exfalso.
    destruct (id_field meta); [discriminate|].
    destruct (_next_id_outcomes name (after_alloc w)) as (r & Hrun & [(n & ->) | ->]).
    + rewrite (bind_run _ _ _ _ n Hrun) in Hfst. discriminate.
    + rewrite (bind_raise _ _ _ _ _ Hrun) in Hfst. discriminate.
  - rewrite (bind_raise _ _ (after_alloc w) (after_alloc w) MultiplePrimaryKey)
      by (unfold lift_result; now rewrite Hraise).
    split; [|reflexivity]. intros _.
    apply Hiff in Hraise. destruct Hraise as [(Habs & _) | Hnamed]; [|exact Hnamed].
    now contradiction Habs.
Qed.

(** ** What declaring a class does *)

Lemma set_name_of_named (attrs : dict attr) (k : string) (fd : Field) :
  In (k, AField fd) (map set_name_of attrs) -> field_name fd <> None.
Proof.
  intros Hin. apply in_map_iff in Hin. destruct Hin as ([k0 a0] & Heq & _).
  destruct a0 as [f0| |]; cbv [set_name_of fst snd] in Heq; inversion Heq; subst.
  unfold Field__set_name__. destruct (field_name f0) eqn:E; simpl; congruence.
Qed.

Lemma setitem_run (l : loc) (key : string) (v : value) (w : world) :
  setitem l key v w =
    (Ok tt, set_heap (<[l := dict_set (deref (heap w) l) key v]> (heap w)) w).
Proof. reflexivity. Qed.

(** X4.  A class statement that succeeds allocates exactly one dictionary,
    the [_data] of the class, and leaves [CACHE], the files and every other
    dictionary as they were; in the class every descriptor of the namespace
    has a name, and unless the class is the base class its [_meta] names a
    primary key. *)
Theorem class_creation_frame (name : string) (attrs : dict attr) (cls : Class)
    (w w' : world) :
  DocumentMeta__new__ name attrs w = (Ok cls, w') ->
  cls_name cls = name /\
  _data cls = next_loc w /\
  next_loc w' = S (next_loc w) /\
  proc w' = proc w /\
  (forall l, l <> next_loc w -> heap w' !! l = heap w !! l) /\
  (forall k fd, In (k, AField fd) (cls_attrs cls) -> field_name fd <> None) /\
  (dict_get attrs "meta_class" <> Some ADocumentMeta -> id_field (_meta cls) <> None).
Proof.
  unfold DocumentMeta__new__. intros H.
  rewrite (bind_run _ _ w (after_alloc w) (next_loc w)) in H by reflexivity.
  assert (Hfresh : forall l, l <> next_loc w -> heap (after_alloc w) !! l = heap w !! l)
    by (intros l Hl; cbn; now rewrite lookup_insert_ne).
  destruct (is_DocumentMeta _) eqn:Hmarker.
  - injection H as <- <-. cbn. repeat split; auto.
    + intros k fd. apply set_name_of_named.
    + intros Hbase. rewrite (marker_absent attrs Hbase) in Hmarker. discriminate.
  - bind_inv H. unfold lift_result in Hrun. injection Hrun as Hscan <-.
    destruct (id_field a) as [n|] eqn:Hid.
    + injection H as <- <-. cbn. repeat split; auto.
      * intros k fd. apply set_name_of_named.
      * intros _. rewrite Hid. discriminate.
    + bind_inv H.
      destruct (_next_id_outcomes name (after_alloc w)) as (r & Hnext & _).
      rewrite Hnext in Hrun. injection Hrun as -> <-.
      rewrite (bind_run _ _ _ _ tt (setitem_run _ _ _ _)) in H.
      cbn in H. injection H as <- <-. cbn.
      split; [reflexivity|]. split; [reflexivity|]. split; [reflexivity|].
      split; [reflexivity|]. split; [|split].
      * intros l Hl. now rewrite !lookup_insert_ne.
      * intros k fd. apply set_name_of_named.
      * discriminate.
Qed.

(** ** The generated id is a new one *)

Lemma fold_max_bounds (zs : list Z) (z0 : Z) :
  z0 <= fold_left Z.max zs z0 /\ Forall (fun z => z <= fold_left Z.max zs z0) zs.
Proof.
  revert z0. induction zs as [|z zs IH]; intros z0; simpl.
  - split; [lia | constructor].
  - destruct (IH (Z.max z0 z)) as [Hlo Hall]. split; [lia|].
    constructor; [lia | exact Hall].
Qed.

Lemma spec_next_id_above (w : world) (name : string) (coll : list loc) (ids : list value) :
  dict_get (CACHE (proc w)) name = Some coll ->
  all_ids (heap w) coll = Some ids ->
  Forall (fun v => int_of v < spec_next_id w name) ids.
Proof.
  intros Hcoll Hids. unfold spec_next_id. rewrite Hcoll, Hids.
  destruct ids as [|v vs]; [constructor|].
  destruct (fold_max_bounds (map int_of vs) (int_of v)) as [Hlo Hall].
  constructor; [lia|].
  apply List.Forall_forall. intros x Hx.
  rewrite List.Forall_forall in Hall. specialize (Hall (int_of x) (in_map int_of vs x Hx)). lia.
Qed.

(** X5.  With integer ids in the collection, [_next_id] returns a number
    greater than every id stored there. *)
Theorem next_id_exceeds_stored_ids (name : string) (coll : list loc) (ids : list value)
    (w : world) :
  integer_ids w name ->
  dict_get (CACHE (proc w)) name = Some coll ->
  all_ids (heap w) coll = Some ids ->
  exists n,
    _next_id name w = (Ok n, w) /\
    Forall (fun v => exists z, as_int v = Some z /\ z < n) ids.
Proof.
  intros Hint Hcoll Hids. exists (spec_next_id w name).
  split; [now apply _next_id_run|].
  pose proof (spec_next_id_above w name coll ids Hcoll Hids) as Habove.
  pose proof (Hint coll ids Hcoll Hids) as Hints.
  rewrite List.Forall_forall in *. intros v Hv.
  destruct (Hints v Hv) as [z Hz]. exists z. split; [exact Hz|].
  specialize (Habove v Hv). unfold int_of in Habove. now rewrite Hz in Habove.
Qed.

(** ** The first [save] after a class statement *)


Lemma get_raw_one_key (cls : Class) (k : string) (v : value) (coll : list loc) (w : world) :
  dict_get (CACHE (proc w)) (get_class_name cls) = Some coll ->
  get_raw cls [(k, v)] w =
    (Ok (if forallb (has_key (heap w) k) coll
         then List.filter (holds_key (heap w) (k, v)) coll else []), w).
Proof.
  intros Hcoll. unfold get_raw, try_except.
  rewrite (bind_run _ _ w w coll) by (rewrite CACHE_getitem_run; now rewrite Hcoll).
  cbn [foldM]. pose proof (filterM_key_run coll (k, v) w) as Hstep. cbn [fst] in Hstep.
  destruct (forallb (has_key (heap w) k) coll).
  - now rewrite (bind_run _ _ w w _ Hstep).
  - now rewrite (bind_raise _ _ w w _ Hstep).
Qed.





Section FirstSave.
Variable json_dumps : value -> string.

End FirstSave.

(** ** Equality of values *)

Lemma value_nested_ind (P : value -> Prop) :
  P VNone -> (forall b, P (VBool b)) -> (forall z, P (VInt z)) -> (forall s, P (VStr s)) ->
  (forall l, Forall P l -> P (VList l)) ->
  (forall d, Forall (fun kv => P (snd kv)) d -> P (VDict d)) ->
  forall v, P v.
Proof.
  intros HNone HBool HInt HStr HList HDict.
  fix IH 1.
  intros [ |b|z|s|l|d]; [exact HNone | apply HBool | apply HInt | apply HStr | | ].
  - apply HList. induction l as [|x l IHl]; constructor; [apply IH | exact IHl].
  - apply HDict. induction d as [|[k x] d IHd]; constructor; [apply IH | exact IHd].
Qed.

Lemma distinct_lookup {A} (d : dict A) (k : string) (v : A) :
  distinct (map fst d) = true -> In (k, v) d -> dict_get d k = Some v.
Proof.
  induction d as [|[k0 v0] d IH]; intros Hd Hin; [destruct Hin|].
  cbn in Hd. apply andb_prop in Hd. destruct Hd as [Hfresh Hd].
  simpl. destruct Hin as [Heq | Hin].
  - injection Heq as -> ->. now rewrite String.eqb_refl.
  - destruct (String.eqb k0 k) eqn:E; [|now apply IH].
    apply String.eqb_eq in E. subst k0. exfalso.
    apply negb_true_iff in Hfresh.
    assert (Hex : existsb (String.eqb k) (map fst d) = true).
    { apply existsb_exists. exists k. split; [|apply String.eqb_refl].
      apply (in_map fst d (k, v) Hin). }
    congruence.
Qed.

Lemma dict_items_eq (e d : dict value) :
  (forall k x, In (k, x) d -> dict_get e k = Some x /\ py_eq x x = true) ->
  (fix go (d : list (string * value)) {struct d} : bool :=
     match d with
     | [] => true
     | (k, v) :: d' =>
         match dict_get e k with
         | Some w => py_eq v w
         | None => false
         end && go d'
     end) d = true.
Proof.
  induction d as [|[k x] d IH]; intros H; [reflexivity|].
  destruct (H k x (or_introl eq_refl)) as [Hget Heq].
  rewrite Hget, Heq. cbn [andb]. apply IH. intros k' x' Hin. apply H. now right.
Qed.

(** [v == v] holds of every value a program can build. *)
Lemma py_eq_refl (v : value) : wf_value v = true -> py_eq v v = true.
Proof.
  induction v as [ |b|z|s|l IHl|d IHd] using value_nested_ind; intros Hwf.
  - reflexivity.
  - simpl. now destruct b.
  - simpl. apply Z.eqb_refl.
  - simpl. apply String.eqb_refl.
  - cbn [wf_value] in Hwf. cbn [py_eq].
    induction l as [|x l IHl']; [reflexivity|].
    cbn [forallb] in Hwf. apply andb_prop in Hwf. destruct Hwf as [Hx Hl].
    inversion IHl as [|? ? Px Pl]; subst.
    rewrite (Px Hx). cbn [andb]. now apply IHl'.
  - cbn [wf_value] in Hwf. apply andb_prop in Hwf. destruct Hwf as [Hkeys Hvals].
    cbn [py_eq]. rewrite Nat.eqb_refl. cbn [andb].
    apply dict_items_eq. intros k x Hin.
    split; [exact (distinct_lookup d k x Hkeys Hin)|].
    rewrite List.Forall_forall in IHd. rewrite forallb_forall in Hvals.
    exact (IHd (k, x) Hin (Hvals (k, x) Hin)).
Qed.

(** ** What a [save] that returns has done *)

Lemma dict_set_set {A} (d : dict A) (k : string) (v v' : A) :
  dict_set (dict_set d k v) k v' = dict_set d k v'.
Proof.
  induction d as [|[k0 v0] d IH]; simpl.
  - now rewrite String.eqb_refl.
  - destruct (String.eqb k0 k) eqn:E; simpl; rewrite E; [reflexivity | now rewrite IH].
Qed.

Lemma dict_set_same {A} (d : dict A) (k : string) (v : A) :
  dict_get d k = Some v -> dict_set d k v = d.
Proof.
  induction d as [|[k0 v0] d IH]; simpl; [discriminate|].
  destruct (String.eqb k0 k) eqn:E.
  - now intros [= ->].
  - intros H. now rewrite IH.
Qed.

(** The [try] statement at the head of [save]: afterwards the collection is
    there, empty if it was not there before. *)
Lemma ensure_collection_run (name : string) (w : world) :
  exists w1,
    try_except (CACHE_getitem name ;;; ret tt) KeyError (CACHE_setitem name []) w =
      (Ok tt, w1) /\
    heap w1 = heap w /\ next_loc w1 = next_loc w /\ next_oid w1 = next_oid w /\
    DB_PATH (proc w1) = DB_PATH (proc w) /\ disk (proc w1) = disk (proc w) /\
    CACHE (proc w1) =
      dict_set (CACHE (proc w)) name (from_option id [] (dict_get (CACHE (proc w)) name)) /\
    dirs (proc w1) = dirs (proc w) /\ refused (proc w1) = refused (proc w).
Proof.
  unfold try_except, bind. rewrite CACHE_getitem_run.
  destruct (dict_get (CACHE (proc w)) name) as [coll|] eqn:E.
  - exists w. cbn. repeat split. symmetry. now apply dict_set_same.
  - eexists. split; [reflexivity|]. cbn. repeat split.
Qed.

Section SaveEffect.
Variable json_dumps : value -> string.

(** A [save] that ends otherwise than in [TypeError] or
    [DocumentAlreadyExists] has found no record under the key, has put
    [_data] at the end of the collection, and ends as [write] ends. *)
Lemma save_reaches_write (self : Instance) (w w' : world) (r : result unit) :
  save json_dumps self w = (r, w') ->
  (forall e, r = Raise e -> is_OSError e = true) ->
  exists k w2,
    pk self = Some k /\ k <> "cls" /\
    (if forallb (has_key (heap w) k)
          (from_option id [] (dict_get (CACHE (proc w)) (get_class_name (inst_class self))))
     then List.filter
            (holds_key (heap w)
               (k, from_option id VNone (dict_get (deref (heap w) (getattr_data self)) k)))
            (from_option id [] (dict_get (CACHE (proc w)) (get_class_name (inst_class self))))
     else []) = [] /\
    heap w2 = heap w /\ next_loc w2 = next_loc w /\ next_oid w2 = next_oid w /\
    DB_PATH (proc w2) = DB_PATH (proc w) /\ disk (proc w2) = disk (proc w) /\
    dirs (proc w2) = dirs (proc w) /\ refused (proc w2) = refused (proc w) /\
    CACHE (proc w2) =
      dict_set (CACHE (proc w)) (get_class_name (inst_class self))
        (from_option id [] (dict_get (CACHE (proc w)) (get_class_name (inst_class self)))
           ++ [to_dict self]) /\
    WormDB_write json_dumps w2 = (r, w').
Proof.
  intros H Hos. unfold save in H.
  set (name := get_class_name (inst_class self)) in *.
  set (coll0 := from_option id [] (dict_get (CACHE (proc w)) name)).
  destruct (ensure_collection_run name w)
    as (w1 & Htry & Hheap1 & Hloc1 & Hoid1 & Hpath1 & Hdisk1 & Hcache1 & Hdirs1 & Href1).
  fold coll0 in Hcache1.
  rewrite (bind_run _ _ w w1 tt Htry) in H.
  destruct (pk self) as [k|] eqn:Hpk.
  2:{ rewrite (bind_run _ _ w1 w1 VNone) in H by reflexivity.
      rewrite (bind_raise _ _ w1 w1 TypeError) in H by reflexivity.
      injection H as <- _. specialize (Hos TypeError eq_refl). discriminate. }
  exists k.
  set (key := from_option id VNone (dict_get (deref (heap w) (getattr_data self)) k)).
  rewrite (bind_run _ _ w1 w1 key) in H.
  2:{ unfold dict_get_or_None, dict_items, bind, gets, ret. now rewrite Hheap1. }
  assert (Hcls : k <> "cls").
  { intros ->. rewrite (bind_raise _ _ w1 w1 TypeError) in H by reflexivity.
    injection H as <- _. specialize (Hos TypeError eq_refl). discriminate. }
  rewrite (bind_run _ _ w1 w1 [(k, key)]) in H by now apply keywords_run.
  assert (Hcoll1 : dict_get (CACHE (proc w1)) name = Some coll0)
    by (rewrite Hcache1; apply dict_get_set_eq).
  pose proof (get_raw_one_key (inst_class self) k key coll0 w1 Hcoll1) as Hraw.
  rewrite Hheap1 in Hraw.
  destruct (if forallb (has_key (heap w) k) coll0
            then List.filter (holds_key (heap w) (k, key)) coll0 else []) as [|x res] eqn:Hres.
  - assert (Hget : get (inst_class self) [(k, key)] w1 = (Ok [], w1))
      by (unfold get; now rewrite (bind_run _ _ w1 w1 [] Hraw)).
    rewrite (bind_run _ _ w1 w1 [] Hget) in H.
    assert (Happend : CACHE_append name (to_dict self) w1 =
              (Ok tt, set_proc (set_CACHE (dict_set (CACHE (proc w1)) name
                                             (coll0 ++ [to_dict self])) (proc w1)) w1)).
    { unfold CACHE_append. rewrite (bind_run _ _ w1 w1 coll0); [reflexivity|].
      rewrite CACHE_getitem_run. now rewrite Hcoll1. }
    rewrite (bind_run _ _ w1 _ tt Happend) in H.
    eexists. split; [reflexivity|]. split; [exact Hcls|]. split; [reflexivity|].
    repeat (split; [|try exact H]); try assumption. cbn.
    rewrite Hcache1. apply dict_set_set.
  - exfalso.
    destruct (get_loop_frame (inst_class self) (x :: res) [] w1) as (w2 & Hloop & _).
    assert (Hget : get (inst_class self) [(k, key)] w1 =
              (Ok (mkInstance (next_oid w1) (inst_class self)
                   :: map (fun i => mkInstance i (inst_class self))
                        (List.seq (S (next_oid w1)) (length res))), w2))
      by (unfold get; rewrite (bind_run _ _ w1 w1 (x :: res) Hraw); exact Hloop).
    rewrite (bind_run _ _ w1 w2 _ Hget) in H.
    rewrite (bind_raise _ _ w2 w2 DocumentAlreadyExists) in H by reflexivity.
    injection H as <- _. specialize (Hos DocumentAlreadyExists eq_refl). discriminate.
Qed.

Lemma same_open_write_error (p q : process store) :
  DB_PATH p = DB_PATH q -> disk p = disk q -> dirs p = dirs q -> refused p = refused q ->
  open_write_error p (DB_PATH p) = open_write_error q (DB_PATH q).
Proof.
  intros Hpath Hdisk Hdirs Href. unfold open_write_error, stat.
  now rewrite Hpath, Hdisk, Hdirs, Href.
Qed.

Lemma save_ok_inv (self : Instance) (w w' : world) :
  save json_dumps self w = (Ok tt, w') ->
  exists k,
    pk self = Some k /\
    (if forallb (has_key (heap w) k)
          (from_option id [] (dict_get (CACHE (proc w)) (get_class_name (inst_class self))))
     then List.filter
            (holds_key (heap w)
               (k, from_option id VNone (dict_get (deref (heap w) (getattr_data self)) k)))
            (from_option id [] (dict_get (CACHE (proc w)) (get_class_name (inst_class self))))
     else []) = [] /\
    heap w' = heap w /\ next_loc w' = next_loc w /\ next_oid w' = next_oid w /\
    DB_PATH (proc w') = DB_PATH (proc w) /\
    CACHE (proc w') =
      dict_set (CACHE (proc w)) (get_class_name (inst_class self))
        (from_option id [] (dict_get (CACHE (proc w)) (get_class_name (inst_class self)))
           ++ [to_dict self]) /\
    disk (proc w') =
      <[DB_PATH (proc w) := json_dumps (snapshot (heap w) (CACHE (proc w')))]> (disk (proc w)) /\
    k <> "cls" /\
    open_write_error (proc w) (DB_PATH (proc w)) = None.
Proof.
  intros H.
  destruct (save_reaches_write self w w' (Ok tt) H ltac:(discriminate))
    as (k & w2 & Hpk & Hcls & Hnone & Hheap & Hloc & Hoid & Hpath & Hdisk & Hdirs & Href
        & Hcache & Hwrite).
  exists k. split; [exact Hpk|]. split; [exact Hnone|].
  rewrite WormDB_write_run in Hwrite.
  rewrite (same_open_write_error (proc w2) (proc w) Hpath Hdisk Hdirs Href) in Hwrite.
  destruct (open_write_error (proc w) (DB_PATH (proc w))); [discriminate|].
  injection Hwrite as <-. cbn.
  repeat split; try assumption.
  unfold store in *. now rewrite Hheap, Hdisk, Hpath, Hcache.
Qed.

(** X7.  A [save] that returns has changed no dictionary object and made
    no new one; the collection of the class is the old one, or the empty
    one if there was none, followed by the [_data] of the instance, all
    other collections are as before, and the only file written is the one
    at [DB_PATH]. *)
Theorem save_effect (self : Instance) (w w' : world) :
  save json_dumps self w = (Ok tt, w') ->
  heap w' = heap w /\
  dict_get (CACHE (proc w')) (get_class_name (inst_class self)) =
    Some (from_option id [] (dict_get (CACHE (proc w)) (get_class_name (inst_class self)))
            ++ [to_dict self]) /\
  (forall other, other <> get_class_name (inst_class self) ->
     dict_get (CACHE (proc w')) other = dict_get (CACHE (proc w)) other) /\
  DB_PATH (proc w') = DB_PATH (proc w) /\
  (forall path, path <> DB_PATH (proc w) ->
     disk (proc w') !! path = disk (proc w) !! path).
Proof.
  intros H.
  destruct (save_ok_inv self w w' H)
    as (k & _ & _ & Hheap & _ & _ & Hpath & Hcache & Hdisk & _).
  split; [exact Hheap|]. split; [|split; [|split]].
  - rewrite Hcache. apply dict_get_set_eq.
  - intros other Hother. rewrite Hcache. apply dict_get_set_ne. congruence.
  - exact Hpath.
  - intros path Hne. rewrite Hdisk. apply lookup_insert_ne. congruence.
Qed.


Lemma forallb_app_last {A} (f : A -> bool) (l : list A) (x : A) :
  forallb f (l ++ [x]) = forallb f l && f x.
Proof. rewrite forallb_app. cbn. now rewrite andb_true_r. Qed.

(** X8.  After a [save] that returned, for an instance that holds a
    well-formed value under its primary key and a collection in which every
    record had that key, [get_raw] by that key returns the saved record and
    nothing else. *)
Theorem save_then_get_raw (self : Instance) (k : string) (key : value) (w w' : world) :
  save json_dumps self w = (Ok tt, w') ->
  pk self = Some k ->
  dict_get (deref (heap w) (getattr_data self)) k = Some key ->
  wf_value key = true ->
  (forall coll l,
     dict_get (CACHE (proc w)) (get_class_name (inst_class self)) = Some coll ->
     In l coll -> has_key (heap w) k l = true) ->
  get_raw (inst_class self) [(k, key)] w' = (Ok [to_dict self], w').
Proof.
  intros H Hpk Hkey Hwf Hkeys.
  destruct (save_ok_inv self w w' H)
    as (k' & Hpk' & Hnone & Hheap & _ & _ & _ & Hcache & _).
  rewrite Hpk in Hpk'. injection Hpk' as <-.
  rewrite Hkey in Hnone. cbn [from_option id] in Hnone.
  set (name := get_class_name (inst_class self)) in *.
  set (coll0 := from_option id [] (dict_get (CACHE (proc w)) name)) in *.
  assert (Hall : forallb (has_key (heap w) k) coll0 = true).
  { apply forallb_forall. intros l Hl. unfold coll0 in Hl.
    destruct (dict_get (CACHE (proc w)) name) as [coll|] eqn:E; [|destruct Hl].
    exact (Hkeys coll l eq_refl Hl). }
  rewrite Hall in Hnone.
  assert (Hself : has_key (heap w) k (to_dict self) = true)
    by (unfold has_key, to_dict; now rewrite Hkey).
  assert (Hheld : holds_key (heap w) (k, key) (to_dict self) = true)
    by (unfold holds_key, to_dict; cbn [fst snd]; rewrite Hkey; now apply py_eq_refl).
  rewrite (get_raw_one_key (inst_class self) k key (coll0 ++ [to_dict self]) w').
  2:{ fold name. rewrite Hcache. apply dict_get_set_eq. }
  rewrite Hheap, forallb_app_last, Hall, Hself. cbn [andb].
  rewrite List.filter_app, Hnone. cbn [List.filter app]. now rewrite Hheld.
Qed.
End SaveEffect.

(** ** [delete] and [update] *)


Lemma list_remove_spec (h : gmap loc record) (seq rest : list loc) (x : loc) :
  list_remove h seq x = Ok rest ->
  exists pre removed post,
    seq = pre ++ removed :: post /\ rest = pre ++ post /\
    Forall (fun z => record_eq h z x = false) pre /\ record_eq h removed x = true.
Proof.
  revert rest. induction seq as [|y seq IH]; intros rest H; [discriminate|].
  simpl in H. destruct (record_eq h y x) eqn:E.
  - injection H as <-. exists [], y, seq. auto.
  - destruct (list_remove h seq x) as [rest'|e]; [|discriminate].
    injection H as <-. destruct (IH rest' eq_refl) as (pre & r & post & -> & -> & Hpre & Hr).
    exists (y :: pre), r, post. repeat split; auto.
Qed.

Lemma list_index_spec (h : gmap loc record) (seq : list loc) (x : loc) (i : nat) :
  list_index h seq x = Ok i ->
  exists pre found post,
    seq = pre ++ found :: post /\ length pre = i /\
    Forall (fun z => record_eq h z x = false) pre /\ record_eq h found x = true.
Proof.
  revert i. induction seq as [|y seq IH]; intros i H; [discriminate|].
  simpl in H. destruct (record_eq h y x) eqn:E.
  - injection H as <-. exists [], y, seq. auto.
  - destruct (list_index h seq x) as [i'|e]; [|discriminate].
    injection H as <-. destruct (IH i' eq_refl) as (pre & r & post & -> & <- & Hpre & Hr).
    exists (y :: pre), r, post. repeat split; auto.
Qed.



Lemma dict_get_app {A} (d e : dict A) (k : string) :
  dict_get (d ++ e) k =
    match dict_get d k with
    | Some v => Some v
    | None => dict_get e k
    end.
Proof.
  induction d as [|[k0 v0] d IH]; simpl; [reflexivity|].
  now destruct (String.eqb k0 k).
Qed.

Lemma dict_get_set (d : dict value) (k k' : string) (v : value) :
  dict_get (dict_set d k v) k' = if String.eqb k k' then Some v else dict_get d k'.
Proof.
  destruct (String.eqb k k') eqn:E.
  - apply String.eqb_eq in E. subst. apply dict_get_set_eq.
  - apply dict_get_set_ne. now apply String.eqb_neq.
Qed.

(** [d.update(other)] read back: the last value [other] gives for a key,
    and what [d] held where [other] has nothing. *)
Lemma dict_update_lookup (d other : dict value) (k : string) :
  dict_get (dict_update d other) k =
    match dict_get (rev other) k with
    | Some v => Some v
    | None => dict_get d k
    end.
Proof.
  unfold dict_update. revert d. induction other as [|[k0 v0] other IH]; intros d.
  - reflexivity.
  - cbn [fold_left fst snd rev]. rewrite IH, dict_get_app, dict_get_set.
    destruct (dict_get (rev other) k); [reflexivity|].
    simpl. now destruct (String.eqb k0 k).
Qed.

Lemma pk_keywords_pure (self : Instance) (w w' : world) (r : result (dict value)) :
  pk_keywords self w = (r, w') -> w' = w.
Proof. apply (preserves_pk_keywords id). Qed.


Section DeleteUpdate.
Variable json_dumps : value -> string.

(** X9.  A [delete] that returns has taken exactly one record out of the
    collection: the first one equal to the first record found under the
    primary key.  The records before and after it keep their order, no
    dictionary object is changed, and the file is written. *)
Theorem delete_effect (self : Instance) (w w' : world) :
  delete json_dumps self w = (Ok tt, w') ->
  exists kwargs first others coll pre removed post,
    pk_keywords self w = (Ok kwargs, w) /\
    get_raw (inst_class self) kwargs w = (Ok (first :: others), w) /\
    dict_get (CACHE (proc w)) (get_class_name (inst_class self)) = Some coll /\
    coll = pre ++ removed :: post /\
    Forall (fun z => record_eq (heap w) z first = false) pre /\
    record_eq (heap w) removed first = true /\
    CACHE (proc w') =
      dict_set (CACHE (proc w)) (get_class_name (inst_class self)) (pre ++ post) /\
    heap w' = heap w /\
    flushed json_dumps w'.
Proof.
  unfold delete. intros H.
  bind_inv H. rename a into kwargs.
  pose proof (pk_keywords_pure _ _ _ _ Hrun) as ->.
  bind_inv H. rename a into query.
  pose proof (get_raw_pure _ _ _ _ _ Hrun0) as ->.
  destruct query as [|first others]; [discriminate|].
  bind_inv H. rename a into coll.
  rewrite CACHE_getitem_run in Hrun1.
  destruct (dict_get (CACHE (proc w)) (get_class_name (inst_class self))) as [coll'|] eqn:Hcoll;
    [|discriminate].
  injection Hrun1 as -> <-.
  bind_inv H. injection Hrun1 as <- <-.
  bind_inv H. unfold lift_result in Hrun1.
  destruct (list_remove (heap w) coll first) as [rest|e] eqn:Hrem; [|discriminate].
  injection Hrun1 as <- <-.
  destruct (list_remove_spec _ _ _ _ Hrem) as (pre & removed & post & -> & -> & Hpre & Hrm).
  bind_inv H. unfold CACHE_setitem, modify in Hrun1. injection Hrun1 as _ <-.
  pose proof (write_flushes json_dumps _ _ H) as Hfl.
  destruct (write_keeps_CACHE json_dumps _ _ _ H) as [Hc Hh].
  exists kwargs, first, others, (pre ++ removed :: post), pre, removed, post.
  repeat split; auto.
Qed.

(** X10.  An [update] that returns leaves [CACHE] bound to the same lists
    and has changed one dictionary object, a record of the collection equal
    to the first record found under the primary key: afterwards that record
    holds under every key what [_data] holds there, and what it held itself
    under the keys [_data] does not have.  The file is written. *)
Theorem update_effect (self : Instance) (w w' : world) :
  update json_dumps self w = (Ok tt, w') ->
  exists kwargs first others coll target,
    pk_keywords self w = (Ok kwargs, w) /\
    get_raw (inst_class self) kwargs w = (Ok (first :: others), w) /\
    dict_get (CACHE (proc w)) (get_class_name (inst_class self)) = Some coll /\
    In target coll /\
    record_eq (heap w) target first = true /\
    CACHE (proc w') = CACHE (proc w) /\
    heap w' =
      <[target := dict_update (deref (heap w) target) (deref (heap w) (to_dict self))]>
        (heap w) /\
    (forall k,
       dict_get (deref (heap w') target) k =
         match dict_get (rev (deref (heap w) (to_dict self))) k with
         | Some v => Some v
         | None => dict_get (deref (heap w) target) k
         end) /\
    flushed json_dumps w'.
Proof.
  unfold update. intros H.
  bind_inv H. rename a into kwargs.
  pose proof (pk_keywords_pure _ _ _ _ Hrun) as ->.
  bind_inv H. rename a into query.
  pose proof (get_raw_pure _ _ _ _ _ Hrun0) as ->.
  destruct query as [|first others]; [discriminate|].
  bind_inv H. rename a into coll.
  rewrite CACHE_getitem_run in Hrun1.
  destruct (dict_get (CACHE (proc w)) (get_class_name (inst_class self))) as [coll'|] eqn:Hcoll;
    [|discriminate].
  injection Hrun1 as -> <-.
  bind_inv H. injection Hrun1 as <- <-.
  bind_inv H. unfold lift_result in Hrun1.
  destruct (list_index (heap w) coll first) as [i|e] eqn:Hidx; [|discriminate].
  injection Hrun1 as <- <-.
  destruct (list_index_spec _ _ _ _ Hidx) as (pre & target & post & -> & <- & Hpre & Htg).
  rewrite nth_middle in H.
  bind_inv H. unfold update_at, dict_items, bind, gets, modify in Hrun1.
  injection Hrun1 as _ <-.
  pose proof (write_flushes json_dumps _ _ H) as Hfl.
  destruct (write_keeps_CACHE json_dumps _ _ _ H) as [Hc Hh].
  exists kwargs, first, others, (pre ++ target :: post), target.
  split; [exact Hrun|]. split; [exact Hrun0|]. split; [reflexivity|].
  split; [apply in_or_app; right; now left|]. split; [exact Htg|].
  split; [exact Hc|]. split; [exact Hh|]. split; [|exact Hfl].
  intros k. rewrite Hh. cbn. rewrite deref_insert_eq. apply dict_update_lookup.
Qed.

End DeleteUpdate.

(** ** The store backend, further *)

Section BackendRoundTrip.
Context {C : Type}.
Variable empty_dict : C.
Variable json_load : string -> result C.
Variable json_dump : C -> string.

Lemma open_write_error_None (p : process C) (path : string) :
  open_write_error p path = None <->
  path <> "" /\ refused p ForWriting path = None /\ stat p path <> Some Directory.
Proof.
  unfold open_write_error. destruct (String.eqb path "") eqn:E.
  - apply String.eqb_eq in E. split; [discriminate | intros [H _]; contradiction].
  - apply String.eqb_neq in E. destruct (refused p ForWriting path).
    + split; [discriminate | intros (_ & H & _); discriminate].
    + destruct (stat p path) as [[bytes|]|]; split; try discriminate; auto.
      intros (_ & _ & H). contradiction.
Qed.

(** X12.  What [write] stored is what a later [WormDB(path)] loads.  When
    [write] has returned and the operating system lets the file be opened
    for reading, then with a codec that decodes the dump of the cache to
    that cache, [WormDB] on the path written, in any process on that file
    system whatever its [DB_PATH] and its [CACHE], makes [CACHE] the cache
    that was written. *)
Theorem write_then_load (p p' : process C) (old_path : string) (stale : C) :
  write json_dump p = (Ok tt, p') ->
  refused p ForReading (DB_PATH p) = None ->
  json_load (json_dump (CACHE p)) = Ok (CACHE p) ->
  WormDB__init__ empty_dict json_load (DB_PATH p)
    (Process old_path stale (disk p') (dirs p') (refused p')) =
    (Ok tt, Process (DB_PATH p) (CACHE p) (disk p') (dirs p') (refused p')).
Proof.
  rewrite write_run.
  destruct (open_write_error p (DB_PATH p)) eqn:Hopen; [discriminate|].
  intros [= <-] Hread Hcodec.
  apply open_write_error_None in Hopen. destruct Hopen as (Hpath & _ & _).
  cbn [disk dirs refused set_disk].
  set (q := Process old_path stale _ (dirs p) (refused p)).
  assert (Hstat : stat q (DB_PATH p) = Some (Regular (json_dump (CACHE p)))).
  { apply stat_regular. split; [exact Hpath|]. unfold q. cbn. apply lookup_insert_eq. }
  rewrite init_run, (exists_present _ _ _ Hstat).
  now rewrite (read_parsed empty_dict json_load (set_DB_PATH (DB_PATH p) q)
                 (json_dump (CACHE p)) (CACHE p) Hread Hstat Hcodec).
Qed.


(** X14.  [read] never changes [DB_PATH] or the file system.  When it
    raises, the cache is as it was, and the exception is the one [open]
    raised or the one [json.load] raised on the bytes of the file. *)
Theorem read_frame (p p' : process C) (r : result unit) :
  read empty_dict json_load p = (r, p') ->
  DB_PATH p' = DB_PATH p /\ disk p' = disk p /\ dirs p' = dirs p /\
  refused p' = refused p /\
  (r = Ok tt \/
   (p' = p /\
    exists e, r = Raise e /\
      (open_read_error p (DB_PATH p) = Some e \/
       exists bytes,
         stat p (DB_PATH p) = Some (Regular bytes) /\ json_load bytes = Raise e))).
Proof.
  destruct (open_read_error p (DB_PATH p)) as [e|] eqn:Hopen.
  - rewrite (read_not_opened empty_dict json_load p e Hopen). intros [= <- <-].
    repeat split. right. split; [reflexivity|]. eauto.
  - apply open_read_error_None in Hopen. destruct Hopen as (Hr & bytes & Hs).
    rewrite (read_opened empty_dict json_load p bytes Hr Hs).
    destruct (json_load bytes) as [parsed|e] eqn:Hload.
    + intros [= <- <-]. cbn. repeat split. now left.
    + destruct (exn_eqb e JSONDecodeError) eqn:Ee.
      * assert (e = JSONDecodeError) by (destruct e; try discriminate; reflexivity). subst e.
        destruct (Nat.eqb (String.length bytes) 0); intros [= <- <-]; cbn.
        -- repeat split. now left.
        -- repeat split. right. split; [reflexivity|]. eauto 6.
      * intros [= <- <-]. repeat split. right. split; [reflexivity|]. eauto 6.
Qed.
End BackendRoundTrip.

(** ** Field descriptors *)

(** X15.  Assigning a field through its descriptor stores the value, or
    the default of the field when the value is [None] and the default is
    not, and reading the field then gives what was stored.  The other keys
    of [_data], every other dictionary, [CACHE] and the files are as they
    were.  A field never assigned reads [None]. *)
Theorem field_assignment (fd : Field) (name : string) (self : Instance) (v : value)
    (w : world) :
  field_name fd = Some name ->
  let stored := if is_None v && negb (is_None (field_default fd))
                then field_default fd else v in
  exists w',
    Field__set__ fd self v w = (Ok tt, w') /\
    Field__get__ fd self w' = (Ok stored, w') /\
    (forall other, other <> name ->
       dict_get (deref (heap w') (getattr_data self)) other =
       dict_get (deref (heap w) (getattr_data self)) other) /\
    (forall l, l <> getattr_data self -> heap w' !! l = heap w !! l) /\
    proc w' = proc w /\
    (dict_get (deref (heap w) (getattr_data self)) name = None ->
     Field__get__ fd self w = (Ok VNone, w)).
Proof.
  intros Hname stored. eexists. split; [apply Field__set__run; exact Hname|].
  split; [|split; [|split; [|split]]].
  - unfold Field__get__, dict_get_or_None, dict_items, bind, gets, ret.
    rewrite Hname. cbn. now rewrite deref_insert_eq, dict_get_set_eq.
  - intros other Hother. cbn. rewrite deref_insert_eq. now apply dict_get_set_ne.
  - intros l Hl. cbn. now rewrite lookup_insert_ne.
  - reflexivity.
  - intros Hnone. unfold Field__get__, dict_get_or_None, dict_items, bind, gets, ret.
    rewrite Hname. cbn. now rewrite Hnone.
Qed.

(** ** The base class *)

Section BaseClass.
Variable json_dumps : value -> string.

(** X16.  A class body that carries the marker [meta_class = DocumentMeta]
    is taken for the base class: no field is collected and no primary key
    is named, and [save], [update] and [delete] on an instance of such a
    class raise [TypeError]; [update] and [delete] change nothing. *)
Theorem base_class_has_no_key (name : string) (attrs : dict attr) (w : world) :
  dict_get attrs "meta_class" = Some ADocumentMeta ->
  exists cls,
    DocumentMeta__new__ name attrs w = (Ok cls, after_alloc w) /\
    fields (_meta cls) = [] /\ id_field (_meta cls) = None /\
    forall (i : nat) (w0 : world),
      fst (save json_dumps (mkInstance i cls) w0) = Raise TypeError /\
      update json_dumps (mkInstance i cls) w0 = (Raise TypeError, w0) /\
      delete json_dumps (mkInstance i cls) w0 = (Raise TypeError, w0).
Proof.
  intros Hmarker. eexists. split.
  { unfold DocumentMeta__new__.
    rewrite (bind_run _ _ w (after_alloc w) (next_loc w)) by reflexivity.
    rewrite !dict_get_set_ne by discriminate. rewrite Hmarker. reflexivity. }
  cbn. split; [reflexivity|]. split; [reflexivity|].
  intros i w0. split; [|split; reflexivity].
  unfold save.
  destruct (ensure_collection_run name w0) as (w1 & Htry & _).
  cbn [inst_class get_class_name type__new__ cls_name].
  rewrite (bind_run _ _ w0 w1 tt Htry). reflexivity.
Qed.
End BaseClass.

(** ** What [get] leaves in [_data] *)

Lemma foldM_app {S A B} (f : B -> A -> M S B) (l1 l2 : list A) (b : B) (s : S) :
  foldM f (l1 ++ l2) b s = bind (foldM f l1 b) (fun b' => foldM f l2 b') s.
Proof.
  revert b s. induction l1 as [|a l1 IH]; intros b s.
  - reflexivity.
  - cbn [app foldM]. unfold bind. destruct (f b a s) as [[b'|e] s1]; [|reflexivity].
    rewrite IH. reflexivity.
Qed.

Lemma copy_items_result (target : loc) (items : record) (u : unit) (w : world) :
  exists w',
    foldM (fun _ kv => setitem target (fst kv) (snd kv)) items u w = (Ok tt, w') /\
    deref (heap w') target = dict_update (deref (heap w) target) items.
Proof.
  revert u w. induction items as [|kv items IH]; intros u w.
  - destruct u. exists w. split; reflexivity.
  - cbn [foldM]. unfold bind at 1. cbn [setitem modify].
    destruct (IH tt (set_heap (<[target := dict_set (deref (heap w) target) (fst kv) (snd kv)]>
                                 (heap w)) w)) as (w' & Hrun & Hres).
    exists w'. split; [exact Hrun|]. rewrite Hres. cbn. now rewrite deref_insert_eq.
Qed.

Lemma absent_key (d : dict value) (k : string) :
  existsb (String.eqb k) (map fst d) = false -> dict_get d k = None.
Proof.
  induction d as [|[k0 v0] d IH]; [reflexivity|]. cbn. intros H.
  apply orb_false_iff in H. destruct H as [Hk Hd].
  rewrite String.eqb_sym, Hk. now apply IH.
Qed.

Lemma dict_get_rev (d : dict value) (k : string) :
  distinct (map fst d) = true -> dict_get (rev d) k = dict_get d k.
Proof.
  induction d as [|[k0 v0] d IH]; [reflexivity|]. cbn. intros H.
  apply andb_prop in H. destruct H as [Hfresh Hd].
  rewrite dict_get_app, (IH Hd). cbn.
  destruct (String.eqb k0 k) eqn:E; [|now destruct (dict_get d k)].
  apply String.eqb_eq in E. subst k0.
  apply negb_true_iff in Hfresh. now rewrite (absent_key d k Hfresh).
Qed.

(** X17.  When [get] has gone through the records selected, the [_data]
    of the class holds every item of the last of them; every instance
    returned reads from that one dictionary. *)
Theorem get_leaves_last_record (cls : Class) (kwargs : dict value) (w : world)
    (front : list loc) (last : loc) :
  get_raw cls kwargs w = (Ok (front ++ [last]), w) ->
  last <> _data cls ->
  distinct (map fst (deref (heap w) last)) = true ->
  exists found w',
    get cls kwargs w = (Ok found, w') /\
    length found = S (length front) /\
    (forall i, In i found -> getattr_data i = _data cls) /\
    forall k v,
      dict_get (deref (heap w) last) k = Some v ->
      dict_get (deref (heap w') (_data cls)) k = Some v.
Proof.
  intros Hraw Hne Hkeys.
  destruct (get_loop_frame cls front [] w) as (w1 & Hfront & _ & _ & Hheap1).
  set (w2 := World (proc w1) (heap w1) (next_loc w1) (S (next_oid w1))).
  assert (Hlast : deref (heap w2) last = deref (heap w) last).
  { unfold deref, w2. cbn [heap]. f_equal. exact (Hheap1 last Hne). }
  destruct (copy_items_result (_data cls) (deref (heap w2) last) tt w2) as (w3 & Hcopy & Hres).
  exists (map (fun i => mkInstance i cls) (List.seq (next_oid w) (length front))
          ++ [mkInstance (next_oid w1) cls]), w3.
  split; [|split; [|split]].
  - unfold get. rewrite (bind_run _ _ w w _ Hraw). rewrite foldM_app.
    rewrite (bind_run _ _ w w1 _ Hfront). cbn [foldM].
    rewrite (bind_run _ _ w1 w3 (map (fun i => mkInstance i cls)
                                   (List.seq (next_oid w) (length front))
                                 ++ [mkInstance (next_oid w1) cls])); [reflexivity|].
    rewrite (bind_run _ _ w1 w2 (mkInstance (next_oid w1) cls)) by reflexivity.
    rewrite (bind_run _ _ w2 w2 (deref (heap w2) last)) by reflexivity.
    now rewrite (bind_run _ _ w2 w3 tt Hcopy).
  - rewrite length_app, length_map, length_seq. cbn. lia.
  - intros i Hi. apply in_app_or in Hi. destruct Hi as [Hi | [<- | []]]; [|reflexivity].
    apply in_map_iff in Hi. destruct Hi as (n & <- & _). reflexivity.
  - intros k v Hv. rewrite Hres, dict_update_lookup, Hlast, (dict_get_rev _ k Hkeys).
    now rewrite Hv.
Qed.

(** ** Saving twice *)

Section SaveTwice.
Variable json_dumps : value -> string.

(** X18.  [save] is not idempotent: after a [save] that returned, for an
    instance that holds a well-formed value under its primary key and a
    collection in which every record had that key, a second [save] raises
    [DocumentAlreadyExists] and leaves [CACHE] and the files as the first
    one left them. *)
Theorem save_twice_refused (self : Instance) (k : string) (key : value) (w w' : world) :
  save json_dumps self w = (Ok tt, w') ->
  pk self = Some k ->
  dict_get (deref (heap w) (getattr_data self)) k = Some key ->
  wf_value key = true ->
  (forall coll l,
     dict_get (CACHE (proc w)) (get_class_name (inst_class self)) = Some coll ->
     In l coll -> has_key (heap w) k l = true) ->
  exists w'',
    save json_dumps self w' = (Raise DocumentAlreadyExists, w'') /\
    proc w'' = proc w'.
Proof.
  intros H Hpk Hkey Hwf Hkeys.
  destruct (save_ok_inv json_dumps self w w' H)
    as (k' & Hpk' & _ & Hheap & _ & _ & _ & Hcache & _ & Hcls & _).
  rewrite Hpk in Hpk'. injection Hpk' as <-.
  set (name := get_class_name (inst_class self)) in *.
  set (coll0 := from_option id [] (dict_get (CACHE (proc w)) name)) in *.
  assert (Hcoll' : dict_get (CACHE (proc w')) name = Some (coll0 ++ [to_dict self]))
    by (rewrite Hcache; apply dict_get_set_eq).
  destruct (save_refuses_duplicate json_dumps self k (coll0 ++ [to_dict self])
              (to_dict self) w' Hpk Hcls Hcoll') as (w'' & Hsecond).
  - intros l Hl. rewrite Hheap. apply in_app_or in Hl. destruct Hl as [Hl | [<- | []]].
    + unfold coll0 in Hl.
      destruct (dict_get (CACHE (proc w)) name) as [coll|] eqn:E; [|destruct Hl].
      specialize (Hkeys coll l eq_refl Hl). unfold has_key in Hkeys.
      destruct (dict_get (deref (heap w) l) k); [discriminate | discriminate].
    + unfold to_dict. rewrite Hkey. discriminate.
  - apply in_or_app. right. now left.
  - rewrite Hheap. unfold holds_key, to_dict. cbn [fst snd]. rewrite Hkey.
    cbn [from_option id]. now apply py_eq_refl.
  - exists w''. split; [exact Hsecond|].
    exact (save_refused_keeps_globals json_dumps self _ w' w'' Hcoll' Hsecond).
Qed.
End SaveTwice.

(** ** A primary key given by the class body *)

Lemma scan_keeps_key (items : list (string * attr)) (meta meta' : Meta) :
  id_field meta <> None -> scan_attrs items meta = Ok meta' ->
  id_field meta' = id_field meta.
Proof.
  revert meta. induction items as [|[k a] items IH]; intros meta Hset H.
  - now injection H as <-.
  - destruct a as [fd| |]; simpl in H; [|exact (IH _ Hset H)|exact (IH _ Hset H)].
    destruct (field_primary_key fd).
    + destruct (id_field meta); [discriminate | contradiction].
    + exact (IH (mkMeta _ (id_field meta)) Hset H).
Qed.

Lemma scan_finds_named_key (items : list (string * attr)) (meta meta' : Meta)
    (k : string) (fd : Field) (n : string) :
  id_field meta = None -> scan_attrs items meta = Ok meta' ->
  In (k, AField fd) items -> field_primary_key fd = true -> field_name fd = Some n ->
  id_field meta' = Some n.
Proof.
  revert meta. induction items as [|[k0 a0] items IH]; intros meta Hnone H Hin Hpk Hn.
  - destruct Hin.
  - destruct a0 as [f0| |]; simpl in H.
    + destruct (field_primary_key f0) eqn:Hpk0.
      * rewrite Hnone in H. destruct (field_name f0) as [n0|] eqn:Hn0.
        -- destruct Hin as [Heq | Hin].
           ++ inversion Heq; subst.
              rewrite (scan_keeps_key _ (mkMeta _ (Some n0)) _ ltac:(discriminate) H).
              cbn. congruence.
           ++ rewrite (scan_second_primary_key items (mkMeta _ (Some n0)))
                in H; [discriminate | discriminate | eauto].
        -- destruct Hin as [Heq | Hin]; [inversion Heq; subst; congruence|].
           exact (IH (mkMeta _ None) eq_refl H Hin Hpk Hn).
      * destruct Hin as [Heq | Hin]; [inversion Heq; subst; congruence|].
        exact (IH (mkMeta _ (id_field meta)) Hnone H Hin Hpk Hn).
    + destruct Hin as [Heq | Hin]; [discriminate|]. exact (IH _ Hnone H Hin Hpk Hn).
    + destruct Hin as [Heq | Hin]; [discriminate|]. exact (IH _ Hnone H Hin Hpk Hn).
Qed.

Lemma In_dict_set_kept {A} (d : dict A) (k k' : string) (a v : A) :
  In (k, a) d -> k <> k' -> In (k, a) (dict_set d k' v).
Proof.
  induction d as [|[k0 v0] d IH]; intros Hin Hne; [destruct Hin|].
  simpl. destruct (String.eqb k0 k') eqn:E.
  - destruct Hin as [Heq | Hin]; [|now right].
    inversion Heq; subst. apply String.eqb_eq in E. contradiction.
  - destruct Hin as [Heq | Hin]; [now left | right; now apply IH].
Qed.

(** X19.  When a class statement succeeds on a body in which a
    primary-key field was given a name, that name is the primary key of the
    class, no [id] is generated, and [_data] starts empty. *)
Theorem named_key_is_kept (name : string) (attrs : dict attr) (cls : Class) (w w' : world)
    (k : string) (fd : Field) (n : string) :
  DocumentMeta__new__ name attrs w = (Ok cls, w') ->
  dict_get attrs "meta_class" <> Some ADocumentMeta ->
  In (k, AField fd) attrs -> k <> "_meta" -> k <> "_data" ->
  field_primary_key fd = true -> field_name fd = Some n ->
  id_field (_meta cls) = Some n /\
  w' = after_alloc w /\
  deref (heap w') (_data cls) = [].
Proof.
  unfold DocumentMeta__new__. intros H Hbase Hin Hk1 Hk2 Hpk Hn.
  rewrite (bind_run _ _ w (after_alloc w) (next_loc w)) in H by reflexivity.
  rewrite (marker_absent attrs Hbase) in H.
  bind_inv H. unfold lift_result in Hrun. injection Hrun as Hscan <-.
  assert (Hid : id_field a = Some n).
  { apply (scan_finds_named_key _ (mkMeta [] None) a k fd n eq_refl Hscan); auto.
    apply In_dict_set_kept; [|exact Hk2]. apply In_dict_set_kept; [exact Hin | exact Hk1]. }
  rewrite Hid in H. injection H as <- <-. cbn.
  split; [exact Hid|]. split; [reflexivity|]. apply deref_insert_eq.
Qed.

(** ** The further theorems at concrete inputs *)

Lemma bob_picked_reached :
  (let* User := DocumentMeta__new__ "User" User_attrs in
   let* a := DocumentMeta__call__ User in
   setattr a "id" (VInt 2) ;;;
   ret a) two_users = (Ok (mkInstance 0 User_loaded), bob_picked).
Proof. vm_compute. reflexivity. Qed.

Lemma bob_renamed_reached :
  setattr (mkInstance 0 User_loaded) "name" (VStr "Robert") bob_picked = (Ok tt, bob_renamed).
Proof. vm_compute. reflexivity. Qed.


Lemma two_users_integer_ids : integer_ids two_users "User".
Proof.
  intros coll ids Hcoll Hids. vm_compute in Hcoll. injection Hcoll as <-.
  vm_compute in Hids. injection Hids as <-.
  repeat constructor; eexists; reflexivity.
Qed.


Lemma multiple_primary_key_iff_witness :
  dict_get named_pair_attrs "_meta" = None /\
  dict_get named_pair_attrs "_data" = None /\
  dict_get named_pair_attrs "meta_class" <> Some ADocumentMeta /\
  fst (DocumentMeta__new__ "Pair" named_pair_attrs empty_world) = Raise MultiplePrimaryKey.
Proof.
  split; [reflexivity|]. split; [reflexivity|]. split; [discriminate|].
  apply (multiple_primary_key_iff "Pair" named_pair_attrs empty_world eq_refl eq_refl);
    [discriminate|].
  exists [], "a", (mkField (Some "a") true VNone), [], "b", (mkField None true VNone), [].
  split; [reflexivity|]. split; [reflexivity|]. split; [discriminate | reflexivity].
Defined.

Lemma class_creation_frame_witness :
  DocumentMeta__new__ "User" User_attrs two_users =
    (Ok User_loaded, snd (DocumentMeta__new__ "User" User_attrs two_users)) /\
  proc (snd (DocumentMeta__new__ "User" User_attrs two_users)) = proc two_users /\
  id_field (_meta User_loaded) <> None.
Proof.
  assert (Hnew : DocumentMeta__new__ "User" User_attrs two_users =
                   (Ok User_loaded, snd (DocumentMeta__new__ "User" User_attrs two_users)))
    by (vm_compute; reflexivity).
  split; [exact Hnew|].
  destruct (class_creation_frame "User" User_attrs User_loaded two_users _ Hnew)
    as (_ & _ & _ & Hproc & _ & _ & Hkey).
  split; [exact Hproc|]. apply Hkey. discriminate.
Defined.

Lemma next_id_exceeds_stored_ids_witness :
  integer_ids two_users "User" /\
  exists n,
    _next_id "User" two_users = (Ok n, two_users) /\
    Forall (fun v => exists z, as_int v = Some z /\ z < n) [VInt 1; VInt 2].
Proof.
  split; [exact two_users_integer_ids|].
  exact (next_id_exceeds_stored_ids "User" [0%nat; 1%nat] [VInt 1; VInt 2] two_users
           two_users_integer_ids eq_refl eq_refl).
Defined.



Lemma save_effect_witness :
  save toy_dumps (mkInstance 0 User) alice_unsaved =
    (Ok tt, snd (save toy_dumps (mkInstance 0 User) alice_unsaved)) /\
  heap (snd (save toy_dumps (mkInstance 0 User) alice_unsaved)) = heap alice_unsaved /\
  dict_get (CACHE (proc (snd (save toy_dumps (mkInstance 0 User) alice_unsaved)))) "User" =
    Some [0%nat].
Proof.
  assert (Hsave : save toy_dumps (mkInstance 0 User) alice_unsaved =
                    (Ok tt, snd (save toy_dumps (mkInstance 0 User) alice_unsaved)))
    by (vm_compute; reflexivity).
  split; [exact Hsave|].
  destruct (save_effect toy_dumps (mkInstance 0 User) alice_unsaved _ Hsave)
    as (Hheap & Hcoll & _).
  split; [exact Hheap | exact Hcoll].
Defined.

Lemma save_then_get_raw_witness :
  save toy_dumps (mkInstance 0 User) alice_unsaved =
    (Ok tt, snd (save toy_dumps (mkInstance 0 User) alice_unsaved)) /\
  get_raw User [("id", VInt 1)] (snd (save toy_dumps (mkInstance 0 User) alice_unsaved)) =
    (Ok [0%nat], snd (save toy_dumps (mkInstance 0 User) alice_unsaved)).
Proof.
  assert (Hsave : save toy_dumps (mkInstance 0 User) alice_unsaved =
                    (Ok tt, snd (save toy_dumps (mkInstance 0 User) alice_unsaved)))
    by (vm_compute; reflexivity).
  split; [exact Hsave|].
  apply (save_then_get_raw toy_dumps (mkInstance 0 User) "id" (VInt 1) alice_unsaved _ Hsave);
    try reflexivity.
  intros coll l Hcoll. vm_compute in Hcoll. discriminate.
Defined.

Lemma delete_effect_witness :
  delete toy_dumps (mkInstance 0 User_loaded) bob_picked =
    (Ok tt, snd (delete toy_dumps (mkInstance 0 User_loaded) bob_picked)) /\
  heap (snd (delete toy_dumps (mkInstance 0 User_loaded) bob_picked)) = heap bob_picked.
Proof.
  assert (Hdel : delete toy_dumps (mkInstance 0 User_loaded) bob_picked =
                   (Ok tt, snd (delete toy_dumps (mkInstance 0 User_loaded) bob_picked)))
    by (vm_compute; reflexivity).
  split; [exact Hdel|].
  destruct (delete_effect toy_dumps (mkInstance 0 User_loaded) bob_picked _ Hdel)
    as (kw & f & o & c & pre & r & post & _ & _ & _ & _ & _ & _ & _ & Hheap & _).
  exact Hheap.
Defined.

Lemma update_effect_witness :
  update toy_dumps (mkInstance 0 User_loaded) bob_renamed =
    (Ok tt, snd (update toy_dumps (mkInstance 0 User_loaded) bob_renamed)) /\
  CACHE (proc (snd (update toy_dumps (mkInstance 0 User_loaded) bob_renamed))) =
    CACHE (proc bob_renamed).
Proof.
  assert (Hupd : update toy_dumps (mkInstance 0 User_loaded) bob_renamed =
                   (Ok tt, snd (update toy_dumps (mkInstance 0 User_loaded) bob_renamed)))
    by (vm_compute; reflexivity).
  split; [exact Hupd|].
  destruct (update_effect toy_dumps (mkInstance 0 User_loaded) bob_renamed _ Hupd)
    as (kw & f & o & c & t & _ & _ & _ & _ & _ & Hcache & _).
  exact Hcache.
Defined.


Lemma write_then_load_witness :
  write tree_dump alice_process = (Ok tt, snd (write tree_dump alice_process)) /\
  tree_load (tree_dump alice_store) = Ok alice_store /\
  WormDB__init__ (VDict []) tree_load "db.json"
    (Process "" (VDict []) (disk (snd (write tree_dump alice_process))) ∅ nothing_refused) =
    (Ok tt,
     Process "db.json" alice_store (disk (snd (write tree_dump alice_process))) ∅
       nothing_refused).
Proof.
  assert (Hwrite : write tree_dump alice_process =
                     (Ok tt, snd (write tree_dump alice_process)))
    by (vm_compute; reflexivity).
  split; [exact Hwrite|]. split; [reflexivity|].
  exact (write_then_load (VDict []) tree_load tree_dump alice_process _ "" (VDict [])
           Hwrite eq_refl eq_refl).
Defined.


Lemma read_frame_witness :
  read [] toy_load stale_process = (Ok tt, snd (read [] toy_load stale_process)) /\
  DB_PATH (snd (read [] toy_load stale_process)) = "db.json" /\
  disk (snd (read [] toy_load stale_process)) = disk stale_process.
Proof.
  assert (Hread : read [] toy_load stale_process =
                    (Ok tt, snd (read [] toy_load stale_process)))
    by (vm_compute; reflexivity).
  split; [exact Hread|].
  destruct (read_frame [] toy_load stale_process _ _ Hread) as (Hpath & Hdisk & _).
  split; [exact Hpath | exact Hdisk].
Defined.

Lemma field_assignment_witness :
  field_name (mkField (Some "name") false (VStr "anon")) = Some "name" /\
  exists w',
    Field__set__ (mkField (Some "name") false (VStr "anon")) (mkInstance 0 User) VNone
      alice_unsaved = (Ok tt, w') /\
    Field__get__ (mkField (Some "name") false (VStr "anon")) (mkInstance 0 User) w' =
      (Ok (VStr "anon"), w').
Proof.
  split; [reflexivity|].
  destruct (field_assignment (mkField (Some "name") false (VStr "anon")) "name"
              (mkInstance 0 User) VNone alice_unsaved eq_refl)
    as (w' & Hset & Hget & _).
  exists w'. split; [exact Hset | exact Hget].
Defined.

Lemma base_class_has_no_key_witness :
  dict_get Document_attrs "meta_class" = Some ADocumentMeta /\
  exists cls,
    DocumentMeta__new__ "Document" Document_attrs empty_world =
      (Ok cls, after_alloc empty_world) /\
    id_field (_meta cls) = None.
Proof.
  split; [reflexivity|].
  destruct (base_class_has_no_key toy_dumps "Document" Document_attrs empty_world eq_refl)
    as (cls & Hnew & _ & Hid & _).
  exists cls. split; [exact Hnew | exact Hid].
Defined.

Lemma get_leaves_last_record_witness :
  get_raw User_loaded [] bob_picked = (Ok ([0%nat] ++ [1%nat]), bob_picked) /\
  exists found w',
    get User_loaded [] bob_picked = (Ok found, w') /\
    length found = 2%nat /\
    dict_get (deref (heap w') (_data User_loaded)) "name" = Some (VStr "Bob").
Proof.
  assert (Hraw : get_raw User_loaded [] bob_picked = (Ok ([0%nat] ++ [1%nat]), bob_picked))
    by (vm_compute; reflexivity).
  split; [exact Hraw|].
  destruct (get_leaves_last_record User_loaded [] bob_picked [0%nat] 1%nat Hraw)
    as (found & w' & Hget & Hlen & _ & Hlast).
  - discriminate.
  - reflexivity.
  - exists found, w'. split; [exact Hget|]. split; [exact Hlen|].
    apply Hlast. reflexivity.
Defined.

Lemma save_twice_refused_witness :
  save toy_dumps (mkInstance 0 User) alice_unsaved =
    (Ok tt, snd (save toy_dumps (mkInstance 0 User) alice_unsaved)) /\
  exists w'',
    save toy_dumps (mkInstance 0 User) (snd (save toy_dumps (mkInstance 0 User) alice_unsaved)) =
      (Raise DocumentAlreadyExists, w'') /\
    proc w'' = proc (snd (save toy_dumps (mkInstance 0 User) alice_unsaved)).
Proof.
  assert (Hsave : save toy_dumps (mkInstance 0 User) alice_unsaved =
                    (Ok tt, snd (save toy_dumps (mkInstance 0 User) alice_unsaved)))
    by (vm_compute; reflexivity).
  split; [exact Hsave|].
  apply (save_twice_refused toy_dumps (mkInstance 0 User) "id" (VInt 1) alice_unsaved _ Hsave);
    try reflexivity.
  intros coll l Hcoll. vm_compute in Hcoll. discriminate.
Defined.

Lemma named_key_is_kept_witness :
  DocumentMeta__new__ "Account" Account_attrs empty_world =
    (Ok Account, snd (DocumentMeta__new__ "Account" Account_attrs empty_world)) /\
  id_field (_meta Account) = Some "uid" /\
  deref (heap (snd (DocumentMeta__new__ "Account" Account_attrs empty_world)))
        (_data Account) = [].
Proof.
  assert (Hnew : DocumentMeta__new__ "Account" Account_attrs empty_world =
                   (Ok Account, snd (DocumentMeta__new__ "Account" Account_attrs empty_world)))
    by (vm_compute; reflexivity).
  split; [exact Hnew|].
  destruct (named_key_is_kept "Account" Account_attrs Account empty_world _
              "uid" (mkField (Some "uid") true VNone) "uid" Hnew)
    as (Hid & _ & Hdata); try reflexivity; try discriminate.
  - left. reflexivity.
  - split; [exact Hid | exact Hdata].
Defined.

